(** * Smart City Citizen Dashboard: the filtering and aggregation pipeline

    A shallow embedding of [app.py]: the data source ([load_data],
    [generate_mock_data]), the sidebar filter that builds [filtered_df],
    the age binning done with [pd.cut] and the grouped summaries handed to
    the chart layer.

    Conventions of the embedding.
    - A pandas [DataFrame] is a table: the list of its column names and
      the list of its rows.  A row is a record with one field per column
      the script ever reads; a field is meaningful only when its column
      is listed in [columns].
    - An integer cell is a [Z]; a [float64] cell is the rational it
      denotes ([Q]); the one special float the script can produce, the
      [NaN] mean of an empty group, is [None].  A mean is written as the
      exact mean of its cells, which the [float64] result approximates;
      no statement below relies on that exactness.
    - No cell of a table is missing.  Every generated table is of this
      kind; what pandas does with the blank cells of a file is outside
      the embedding, and a property that blank cells would change is
      stated for generated tables only.
    - What the script leaves to a default of the installed pandas is a
      parameter ([Pandas]), since the script pins no version.
    - A pandas [Series] is the list of its cells, a boolean mask a
      [list bool].
    - Python objects live in a heap ([gmap] from object ids to tables)
      and the script's global names are bound to ids, so that in-place
      updates and aliasing are visible. *)

From Stdlib Require Import ZArith QArith Qminmax Lia List.
From stdpp Require Import base decidable option list strings gmap sorting.
Import ListNotations.

Local Open Scope string_scope.
Local Open Scope Z_scope.

(** ** Data model *)

Module Frame.

(** One citizen record.  [Age_Group] is the categorical cell written by
    [pd.cut]: a label, or [None] for [NaN]. *)
Record Row := mkRow {
  Age : Z;
  Gender : string;
  District : string;
  Mode_of_Transport : string;
  Carbon_Footprint_kgCO2 : Q;
  Steps_Walked : Z;
  Sleep_Hours : Q;
  Social_Media_Hours : Q;
  Public_Transport_Usage : string;
  Recycling_Rate : Q;
  Digital_Service_Usage : Z;
  Age_Group : option string
}.

Record DataFrame := mkDataFrame {
  columns : list string;
  rows : list Row
}.

(** [name in df.columns] *)
Definition has_column (name : string) (df : DataFrame) : bool :=
  bool_decide (name ∈ columns df).

(** [len(df)] *)
Definition len (df : DataFrame) : nat := length (rows df).

(** [df[name]] for a column read by the accessor [f]. *)
Definition col {A} (f : Row -> A) (df : DataFrame) : list A :=
  map f (rows df).

(** [series >= k] and [series <= k]: element-wise comparisons. *)
Definition series_ge (s : list Z) (k : Z) : list bool :=
  map (fun x => k <=? x) s.

Definition series_le (s : list Z) (k : Z) : list bool :=
  map (fun x => x <=? k) s.

(** [series == v] on a column of strings. *)
Definition series_eq (s : list string) (v : string) : list bool :=
  map (fun x => bool_decide (x = v)) s.

(** [series.isin(values)] *)
Definition isin (s : list string) (values : list string) : list bool :=
  map (fun x => bool_decide (x ∈ values)) s.

(** [m1 & m2] on boolean masks. *)
Definition mask_and (m1 m2 : list bool) : list bool :=
  zip_with andb m1 m2.

(** Rows kept by a boolean mask, in their original order. *)
Fixpoint boolean_index (l : list Row) (mask : list bool) : list Row :=
  match l, mask with
  | r :: l', b :: mask' =>
      if b then r :: boolean_index l' mask' else boolean_index l' mask'
  | _, _ => []
  end.

(** [df[mask]]: a new table with the same columns. *)
Definition getitem_mask (df : DataFrame) (mask : list bool) : DataFrame :=
  {| columns := columns df; rows := boolean_index (rows df) mask |}.

(** [series.unique()]: the distinct values in order of first appearance. *)
Fixpoint unique (s : list string) : list string :=
  match s with
  | [] => []
  | x :: s' => x :: List.filter (fun y => negb (bool_decide (y = x))) (unique s')
  end.

End Frame.
Export Frame.

(** ** The sidebar filter (app.py, lines 132-176) *)

Module Sidebar.

(** Python truthiness of [district_filter]: [None] and the empty list are
    false. *)
Definition truthy (district_filter : option (list string)) : bool :=
  match district_filter with
  | None => false
  | Some [] => false
  | Some (_ :: _) => true
  end.

(** The value bound to [district_filter] (lines 149-157): the multiselect's
    selection when the table has a [District] column, [None] otherwise. *)
Definition district_widget (df : DataFrame) (selection : list string)
  : option (list string) :=
  if has_column "District" df then Some selection else None.

(** [filtered_df] as computed by lines 168-176. *)
Definition apply_filters (df : DataFrame) (age_range : Z * Z)
    (gender_filter : list string) (district_filter : option (list string))
    (transport_filter : list string) : DataFrame :=
  let filtered_df :=
    getitem_mask df
      (mask_and
         (mask_and
            (mask_and (series_ge (col Age df) (fst age_range))
                      (series_le (col Age df) (snd age_range)))
            (isin (col Gender df) gender_filter))
         (isin (col Mode_of_Transport df) transport_filter)) in
  if truthy district_filter && has_column "District" df
  then getitem_mask filtered_df
         (isin (col District filtered_df) (default [] district_filter))
  else filtered_df.

End Sidebar.
Export Sidebar.

(** ** Age binning with [pd.cut] (app.py, lines 344-347 and 483-488) *)

Module Binning.

Definition age_bins : list Z := [18; 25; 35; 45; 55; 65; 75; 100].

Definition age_labels : list string :=
  ["18-24"; "25-34"; "35-44"; "45-54"; "55-64"; "65-74"; "75+"].

(** [bins.searchsorted(x, side="right")]: on increasing edges, the number
    of edges that are [<= x]. *)
Definition searchsorted_right (bins : list Z) (x : Z) : nat :=
  length (List.filter (fun b => b <=? x) bins).

(** [pd.cut(x, bins, labels=labels, right=False)] on one value.  pandas
    looks the value up with [searchsorted(side="right")] and masks the
    positions [0] (below the first edge) and [len(bins)] (at or above the
    last edge) as [NaN]; position [i] takes label [i-1]. *)
Definition cut (x : Z) (bins : list Z) (labels : list string)
  : option string :=
  let ids := searchsorted_right bins x in
  if bool_decide (ids = 0%nat) || bool_decide (ids = length bins)
  then None
  else labels !! (ids - 1)%nat.

Definition cut_series (s : list Z) (bins : list Z) (labels : list string)
  : list (option string) :=
  map (fun x => cut x bins labels) s.

Definition set_Age_Group (r : Row) (v : option string) : Row :=
  mkRow (Age r) (Gender r) (District r) (Mode_of_Transport r)
        (Carbon_Footprint_kgCO2 r) (Steps_Walked r) (Sleep_Hours r)
        (Social_Media_Hours r) (Public_Transport_Usage r)
        (Recycling_Rate r) (Digital_Service_Usage r) v.

(** The table after [df["Age_Group"] = values]: the column is overwritten
    when present and appended otherwise. *)
Definition setitem_Age_Group (df : DataFrame) (values : list (option string))
  : DataFrame :=
  {| columns := if has_column "Age_Group" df then columns df
                else columns df ++ ["Age_Group"];
     rows := zip_with set_Age_Group (rows df) values |}.

(** The table with its ages binned, as both call sites build it. *)
Definition bin_ages (df : DataFrame) : DataFrame :=
  setitem_Age_Group df (cut_series (col Age df) age_bins age_labels).

End Binning.
Export Binning.

(** ** Grouped summaries *)

Module Aggregate.

(** [series.mean()]: [NaN] on an empty series, and otherwise the mean of
    the cells (exact here, rounded to [float64] by pandas). *)
Definition mean (l : list Q) : option Q :=
  match l with
  | [] => None
  | _ :: _ => Some (fold_right Qplus 0%Q l / inject_Z (Z.of_nat (length l)))%Q
  end.

Definition str_le (a b : string) : Prop := String.leb a b = true.

#[global] Instance str_le_dec a b : Decision (str_le a b).
Proof. unfold str_le. apply _. Defined.

(** Values of the rows whose key cell is [k]. *)
Definition group_values (key : Row -> option string) (val : Row -> Q)
    (l : list Row) (k : string) : list Q :=
  map val (List.filter (fun r => bool_decide (key r = Some k)) l).

(** Group keys of a plain (object) column: the values that occur, [NaN]
    dropped, in sorted order. *)
Definition group_keys (keys : list (option string)) : list string :=
  merge_sort str_le (unique (omap id keys)).

(** [df.groupby(key)[val].mean().reset_index()] on a plain column. *)
Definition groupby_mean (key : Row -> option string) (val : Row -> Q)
    (l : list Row) : list (string * option Q) :=
  map (fun k => (k, mean (group_values key val l k)))
      (group_keys (map key l)).

(** The installed pandas, as far as the script depends on its version:
    the default of [groupby]'s [observed] argument, which the script
    never passes.  With [observed=False] a categorical grouper shows
    every category, observed or not; with [observed=True] only the
    categories that occur. *)
Class Pandas := {
  observed_default : bool
}.

(** pandas 1.x and 2.x: [observed] defaults to [False]. *)
Definition pandas_2x : Pandas := {| observed_default := false |}.

(** pandas 3.0 and later: [observed] defaults to [True]. *)
Definition pandas_3x : Pandas := {| observed_default := true |}.

(** [df.groupby(key, observed=observed)[val].mean().reset_index()] when
    the key column is categorical with the given categories. *)
Definition groupby_mean_categorical (observed : bool)
    (categories : list string) (key : Row -> option string)
    (val : Row -> Q) (l : list Row) : list (string * option Q) :=
  map (fun k => (k, mean (group_values key val l k)))
      (if observed
       then List.filter (fun k => bool_decide (Some k ∈ map key l)) categories
       else categories).

(** Order of [sort_values]: ascending, [NaN] last.  How pandas orders
    equal values is not modelled. *)
Definition value_leb (a b : string * option Q) : bool :=
  match a.2, b.2 with
  | Some x, Some y => Qle_bool x y
  | _, None => true
  | None, Some _ => false
  end.

Definition value_le (a b : string * option Q) : Prop := value_leb a b = true.

#[global] Instance value_le_dec a b : Decision (value_le a b).
Proof. unfold value_le. apply _. Defined.

Definition sort_values (t : list (string * option Q))
  : list (string * option Q) :=
  merge_sort value_le t.

(** [series.value_counts().sort_index()] on a categorical column: one
    count per category, zero included, in category order. *)
Definition value_counts_sort_index (categories : list string)
    (s : list (option string)) : list (string * nat) :=
  map (fun c => (c, length (List.filter (fun v => bool_decide (v = Some c)) s)))
      categories.

End Aggregate.
Export Aggregate.

(** ** What the tabs compute (app.py, lines 288-530) *)

Module Charts.

(** Line 317-318. *)
Definition transport_carbon (filtered_df : DataFrame)
  : list (string * option Q) :=
  sort_values
    (groupby_mean (fun r => Some (Mode_of_Transport r))
                  Carbon_Footprint_kgCO2 (rows filtered_df)).

(** Line 421. *)
Definition gender_steps (filtered_df : DataFrame)
  : list (string * option Q) :=
  groupby_mean (fun r => Some (Gender r))
               (fun r => inject_Z (Steps_Walked r)) (rows filtered_df).

(** Lines 371-373. *)
Definition district_carbon (filtered_df : DataFrame)
  : option (list (string * option Q)) :=
  if has_column "District" filtered_df
  then Some (groupby_mean (fun r => Some (District r))
                          Carbon_Footprint_kgCO2 (rows filtered_df))
  else None.

(** Lines 476, 510-511. *)
Definition digital_by_district (filtered_df : DataFrame)
  : option (list (string * option Q)) :=
  if has_column "Recycling_Rate" filtered_df
     && (has_column "District" filtered_df
         && has_column "Digital_Service_Usage" filtered_df)
  then Some (groupby_mean (fun r => Some (District r))
                          (fun r => inject_Z (Digital_Service_Usage r))
                          (rows filtered_df))
  else None.

Section Installed.
Context {P : Pandas}.

(** Lines 476-490.  A table that already carries an [Age_Group] column
    (read from the file, hence a plain column) is grouped as it is;
    otherwise the ages are binned and the categorical column is grouped,
    with the [observed] default of the installed pandas. *)
Definition recycling_by_age (filtered_df : DataFrame)
  : option (list (string * option Q)) :=
  if has_column "Recycling_Rate" filtered_df
  then Some (if negb (has_column "Age_Group" filtered_df)
             then groupby_mean_categorical observed_default age_labels
                    Age_Group Recycling_Rate (rows (bin_ages filtered_df))
             else groupby_mean Age_Group Recycling_Rate (rows filtered_df))
  else None.

(** Lines 346-350. *)
Definition ev_age_df (df : DataFrame) : DataFrame :=
  let df_age_group := bin_ages df in
  getitem_mask df_age_group
    (series_eq (col Mode_of_Transport df_age_group) "EV").

(** Line 351. *)
Definition ev_age_distribution_of (df : DataFrame) : list (string * nat) :=
  value_counts_sort_index age_labels (col Age_Group (ev_age_df df)).

(** The summaries one run of the script hands to the chart layer. *)
Record Dashboard := mkDashboard {
  shown : nat;
  total : nat;
  transport_carbon_chart : list (string * option Q);
  ev_age_distribution : list (string * nat);
  gender_steps_chart : list (string * option Q);
  recycling_by_age_chart : option (list (string * option Q))
}.

(** One run of the script body on the loaded table [df] and the widget
    values. *)
Definition run (df : DataFrame) (age_range : Z * Z)
    (gender_filter : list string) (district_filter : option (list string))
    (transport_filter : list string) : Dashboard :=
  let filtered_df :=
    apply_filters df age_range gender_filter district_filter
                  transport_filter in
  {| shown := len filtered_df;
     total := len df;
     transport_carbon_chart := transport_carbon filtered_df;
     ev_age_distribution := ev_age_distribution_of df;
     gender_steps_chart := gender_steps filtered_df;
     recycling_by_age_chart := recycling_by_age filtered_df |}.

End Installed.

End Charts.
Export Charts.

(** ** The data source (app.py, lines 83-118) *)

Module Source.

(** The part of [numpy.random] the generator uses, as an interface: the
    legacy global generator is a state, [seed] overwrites it, and every
    draw of [size] values returns the values together with the advanced
    state.  The laws are numpy's documented contract: the state after
    [seed(k)] is determined by [k], arrays have the requested size,
    [randint(low, high)] draws from [[low, high)], [choice] draws
    elements of its argument. *)
Class RandomState := {
  rng : Type;
  seed : Z -> rng -> rng;
  randint : Z -> Z -> nat -> rng -> list Z * rng;
  choice : list string -> nat -> rng -> list string * rng;
  normal : Q -> Q -> nat -> rng -> list Q * rng;
  exponential : Q -> nat -> rng -> list Q * rng;
  seed_reset : forall k g g', seed k g = seed k g';
  randint_length : forall low high size g,
    length (randint low high size g).1 = size;
  randint_range : forall low high size g,
    low < high ->
    Forall (fun x => low <= x < high) (randint low high size g).1;
  choice_length : forall a size g, length (choice a size g).1 = size;
  choice_elem : forall a size g,
    a <> [] -> Forall (fun x => x ∈ a) (choice a size g).1;
  normal_length : forall loc scale size g,
    length (normal loc scale size g).1 = size;
  exponential_length : forall scale size g,
    length (exponential scale size g).1 = size
}.

(** [array.clip(lo, hi)], i.e. [minimum(maximum(array, lo), hi)]. *)
Definition clip (s : list Q) (lo hi : Q) : list Q :=
  map (fun x => Qmin (Qmax x lo) hi) s.

Definition mock_columns : list string :=
  ["Age"; "Gender"; "District"; "Mode_of_Transport";
   "Carbon_Footprint_kgCO2"; "Steps_Walked"; "Sleep_Hours";
   "Social_Media_Hours"; "Public_Transport_Usage"; "Recycling_Rate";
   "Digital_Service_Usage"].

(** [pd.DataFrame(data)] for the dictionary of the eleven arrays of
    length [n]: row [i] collects the [i]-th entry of every array. *)
Definition from_columns (n : nat) (age : list Z) (gender district mode : list string)
    (carbon : list Q) (steps : list Z) (sleep social : list Q)
    (public : list string) (recycling : list Q) (digital : list Z)
  : DataFrame :=
  {| columns := mock_columns;
     rows := map (fun i =>
               mkRow (nth i age 0) (nth i gender "") (nth i district "")
                     (nth i mode "") (nth i carbon 0%Q) (nth i steps 0)
                     (nth i sleep 0%Q) (nth i social 0%Q) (nth i public "")
                     (nth i recycling 0%Q) (nth i digital 0) None)
             (seq 0 n) |}.

Inductive exception :=
  | FileNotFoundError
  | OtherError (name : string).

Inductive outcome (A : Type) :=
  | Returned (a : A)
  | Raised (e : exception).
Arguments Returned {A} a.
Arguments Raised {A} e.

Definition csv_path : string := "dataset/smart_city_citizen_activity.csv".

Definition mock_notice : string :=
  "Using generated mock data. Replace with your actual dataset for production use.".

Section Generator.
Context `{RS : RandomState}.

(** [generate_mock_data(n_samples)], run on the current state [g0] of the
    global generator; returns the table and the state it leaves. *)
Definition generate_mock_data (n_samples : nat) (g0 : rng) : DataFrame * rng :=
  let g := seed 42 g0 in
  let transport_modes :=
    ["Bus"; "Car"; "Bicycle"; "Walk"; "EV"; "Train"; "Motorcycle"] in
  let genders := ["Male"; "Female"; "Non-binary"] in
  let districts :=
    ["Downtown"; "Uptown"; "Westside"; "Eastside"; "Suburbs"; "Industrial"] in
  let '(age, g) := randint 18 80 n_samples g in
  let '(gender, g) := choice genders n_samples g in
  let '(district, g) := choice districts n_samples g in
  let '(mode, g) := choice transport_modes n_samples g in
  let '(carbon, g) := normal 10 5 n_samples g in
  let '(steps, g) := randint 1000 15000 n_samples g in
  let '(sleep, g) := normal 7 (3 # 2) n_samples g in
  let '(social, g) := exponential 2 n_samples g in
  let '(public, g) :=
    choice ["Daily"; "Weekly"; "Monthly"; "Rarely"; "Never"] n_samples g in
  let '(recycling, g) := normal 65 20 n_samples g in
  let '(digital, g) := randint 1 10 n_samples g in
  (from_columns n_samples age gender district mode
     (clip carbon 0 30) steps (clip sleep 4 10) (clip social 0 10)
     public (clip recycling 0 100) digital,
   g).

(** What the script's environment provides: the outcome of
    [pd.read_csv] for a path, the global generator, and the notices shown
    with [st.info] so far. *)
Record World := mkWorld {
  read_csv : string -> outcome DataFrame;
  np_random : rng;
  info_log : list string
}.

(** The body of [load_data] (lines 84-90). *)
Definition load_data (w : World) : outcome DataFrame * World :=
  match read_csv w csv_path with
  | Returned df => (Returned df, w)
  | Raised FileNotFoundError =>
      let w1 := {| read_csv := read_csv w;
                   np_random := np_random w;
                   info_log := info_log w ++ [mock_notice] |} in
      let '(df, g) := generate_mock_data 300 (np_random w1) in
      (Returned df,
       {| read_csv := read_csv w1; np_random := g; info_log := info_log w1 |})
  | Raised e => (Raised e, w)
  end.

End Generator.

(** *** A concrete generator

    A linear congruential generator that implements the interface; it
    stands in for numpy's generator wherever a run has to be computed. *)

Definition lcg_next (s : Z) : Z := (1103515245 * s + 12345) mod 2147483648.

Fixpoint lcg_draws (n : nat) (s : Z) : list Z * Z :=
  match n with
  | O => ([], s)
  | S n' =>
      let s1 := lcg_next s in
      let '(l, s2) := lcg_draws n' s1 in
      (s1 :: l, s2)
  end.

Definition lcg_randint (low high : Z) (size : nat) (s : Z) : list Z * Z :=
  let '(l, s') := lcg_draws size s in
  (map (fun x => low + x mod (high - low)) l, s').

Definition lcg_choice (a : list string) (size : nat) (s : Z)
  : list string * Z :=
  let '(l, s') := lcg_draws size s in
  (map (fun x => nth (Z.to_nat (x mod Z.of_nat (length a))) a "") l, s').

Definition lcg_normal (loc scale : Q) (size : nat) (s : Z) : list Q * Z :=
  let '(l, s') := lcg_draws size s in
  (map (fun x => loc + scale * inject_Z (x mod 9 - 4))%Q l, s').

Definition lcg_exponential (scale : Q) (size : nat) (s : Z) : list Q * Z :=
  let '(l, s') := lcg_draws size s in
  (map (fun x => scale * inject_Z (x mod 7))%Q l, s').

End Source.
Export Source.

(** ** Objects and names

    The script's tables are Python objects.  [df[mask]] and [df.copy()]
    make new objects, [df[name] = values] updates the object in place,
    and an assignment binds a global name to an object. *)

Module Store.

Definition loc := positive.

Record PyState := mkPyState {
  heap : gmap loc DataFrame;
  globals : gmap string loc
}.

(** A statement: it fails ([None]) on an unbound name or a dangling
    object, and otherwise returns a value and the next state. *)
Definition Py (A : Type) : Type := PyState -> option (A * PyState).

#[global] Instance Py_ret : MRet Py := fun A a st => Some (a, st).

#[global] Instance Py_bind : MBind Py := fun A B f m st =>
  match m st with
  | Some (a, st') => f a st'
  | None => None
  end.

(** Reading a global name. *)
Definition name (x : string) : Py loc := fun st =>
  match globals st !! x with
  | Some l => Some (l, st)
  | None => None
  end.

(** The table an object currently holds. *)
Definition deref (l : loc) : Py DataFrame := fun st =>
  match heap st !! l with
  | Some d => Some (d, st)
  | None => None
  end.

(** A new object. *)
Definition new_object (d : DataFrame) : Py loc := fun st =>
  let l := fresh (dom (heap st)) in
  Some (l, {| heap := <[l:=d]> (heap st); globals := globals st |}).

(** [x = <object l>] *)
Definition assign (x : string) (l : loc) : Py unit := fun st =>
  Some (tt, {| heap := heap st; globals := <[x:=l]> (globals st) |}).

(** In-place update of the object [l]. *)
Definition update_object (l : loc) (d : DataFrame) : Py unit := fun st =>
  match heap st !! l with
  | Some _ => Some (tt, {| heap := <[l:=d]> (heap st); globals := globals st |})
  | None => None
  end.

(** Lines 168-176: the two assignments to [filtered_df]. *)
Definition stmt_apply_filters (age_range : Z * Z)
    (gender_filter : list string) (district_filter : option (list string))
    (transport_filter : list string) : Py unit :=
  l ← name "df";
  d ← deref l;
  l1 ← new_object
         (getitem_mask d
            (mask_and
               (mask_and
                  (mask_and (series_ge (col Age d) (fst age_range))
                            (series_le (col Age d) (snd age_range)))
                  (isin (col Gender d) gender_filter))
               (isin (col Mode_of_Transport d) transport_filter)));
  _ ← assign "filtered_df" l1;
  if truthy district_filter && has_column "District" d
  then
    lf ← name "filtered_df";
    fd ← deref lf;
    l2 ← new_object
           (getitem_mask fd
              (isin (col District fd) (default [] district_filter)));
    assign "filtered_df" l2
  else mret tt.

(** Lines 346-347: [df_age_group = df.copy()] followed by the in-place
    [df_age_group["Age_Group"] = pd.cut(...)]. *)
Definition stmt_age_group : Py unit :=
  l ← name "df";
  d ← deref l;
  l1 ← new_object d;
  _ ← assign "df_age_group" l1;
  lg ← name "df_age_group";
  g ← deref lg;
  update_object lg
    (setitem_Age_Group g (cut_series (col Age g) age_bins age_labels)).

(** Lines 481-488: the same on a copy of [filtered_df], guarded by the
    column test. *)
Definition stmt_recycling_age_group : Py unit :=
  l ← name "filtered_df";
  d ← deref l;
  l1 ← new_object d;
  _ ← assign "df_age_group" l1;
  lg ← name "df_age_group";
  g ← deref lg;
  if negb (has_column "Age_Group" g)
  then update_object lg
         (setitem_Age_Group g (cut_series (col Age g) age_bins age_labels))
  else mret tt.

(** The earlier revision kept in [.ipynb_checkpoints/app-checkpoint.py]
    bins without a copy: [df["Age_Group"] = pd.cut(df["Age"], ...)]. *)
Definition stmt_age_group_checkpoint : Py unit :=
  l ← name "df";
  d ← deref l;
  update_object l
    (setitem_Age_Group d (cut_series (col Age d) age_bins age_labels)).

(** The two places where app.py derives a table from [df]: the sidebar
    filter and the age groups of the EV chart. *)
Definition stmt_derive (age_range : Z * Z)
    (gender_filter : list string) (district_filter : option (list string))
    (transport_filter : list string) : Py unit :=
  _ ← stmt_apply_filters age_range gender_filter district_filter
        transport_filter;
  stmt_age_group.

(** Every object of [st] is still there in [st'], holding the same table. *)
Definition unchanged (st st' : PyState) : Prop :=
  forall l d, heap st !! l = Some d -> heap st' !! l = Some d.

End Store.
Export Store.

(** ** The criteria predicate and sample data *)

Module Criteria.

Section Criteria.

Variables (df : DataFrame) (age_range : Z * Z).
Variables (gender_filter : list string) (district_filter : option (list string)).
Variable transport_filter : list string.

(** The mask of lines 169-172, row by row. *)
Definition base_mask (r : Row) : bool :=
  (fst age_range <=? Age r) && (Age r <=? snd age_range)
  && bool_decide (Gender r ∈ gender_filter)
  && bool_decide (Mode_of_Transport r ∈ transport_filter).

(** The criteria predicate as the specification words it. *)
Definition satisfies (r : Row) : Prop :=
  fst age_range <= Age r <= snd age_range
  /\ Gender r ∈ gender_filter
  /\ Mode_of_Transport r ∈ transport_filter
  /\ (District r ∈ default [] district_filter
      \/ truthy district_filter = false).

#[global] Instance satisfies_dec r : Decision (satisfies r).
Proof. unfold satisfies. apply _. Defined.

(** The District selection exists only for a table that has the column
    (lines 149-157 bind [None] otherwise). *)
Definition valid_criteria : Prop :=
  has_column "District" df = false -> district_filter = None.

End Criteria.

End Criteria.
Export Criteria.

Module Sample.

(** A record with the given demographics and fixed measurements. *)
Definition citizen (age : Z) (gender district mode : string) : Row :=
  mkRow age gender district mode 10 5000 7 2 "Weekly" 60 5 None.

(** Ten records, five of them male with ages 20, 30, 40, 50 and 60. *)
Definition scenario_df : DataFrame :=
  {| columns := mock_columns;
     rows := [ citizen 20 "Male" "Downtown" "Bus";
               citizen 33 "Female" "Uptown" "EV";
               citizen 30 "Male" "Uptown" "EV";
               citizen 41 "Female" "Downtown" "Car";
               citizen 40 "Male" "Westside" "Car";
               citizen 70 "Non-binary" "Westside" "EV";
               citizen 50 "Male" "Downtown" "Walk";
               citizen 28 "Female" "Suburbs" "Train";
               citizen 60 "Male" "Suburbs" "EV";
               citizen 55 "Female" "Uptown" "Bicycle" ] |}.

(** Ages of the male records, in table order. *)
Definition male_ages (df : DataFrame) : list Z :=
  map Age (List.filter (fun r => bool_decide (Gender r = "Male")) (rows df)).

(** The selection every multiselect starts with: all values of the column. *)
Definition all_genders (df : DataFrame) : list string :=
  unique (col Gender df).

Definition all_modes (df : DataFrame) : list string :=
  unique (col Mode_of_Transport df).

Definition all_districts (df : DataFrame) : option (list string) :=
  district_widget df (unique (col District df)).

(** A table read from a file without a [District] column. *)
Definition no_district_df : DataFrame :=
  {| columns := ["Age"; "Gender"; "Mode_of_Transport";
                 "Carbon_Footprint_kgCO2"; "Steps_Walked"; "Sleep_Hours";
                 "Social_Media_Hours"];
     rows := [ citizen 30 "Male" "" "EV"; citizen 45 "Female" "" "Bus" ] |}.

(** A table holding one citizen aged exactly 100. *)
Definition centenarian_df : DataFrame :=
  {| columns := mock_columns;
     rows := [ citizen 100 "Female" "Uptown" "EV";
               citizen 75 "Male" "Uptown" "EV" ] |}.

End Sample.
Export Sample.

(** ** Counts per category (app.py, lines 252, 269, 296) *)

Module Counts.

(** Number of cells of a column equal to [v]. *)
Definition count_of (v : string) (s : list string) : nat :=
  length (List.filter (fun x => bool_decide (x = v)) s).

(** Order of [value_counts]: the larger count first. *)
Definition count_ge (a b : string * nat) : Prop := (b.2 <= a.2)%nat.

#[global] Instance count_ge_dec a b : Decision (count_ge a b).
Proof. unfold count_ge. apply _. Defined.

(** [series.value_counts().reset_index()] on a plain column: one row per
    value that occurs, with its count, ordered by decreasing count.  How
    pandas orders equal counts is not modelled. *)
Definition value_counts (s : list string) : list (string * nat) :=
  merge_sort count_ge (map (fun v => (v, count_of v s)) (unique s)).

(** Line 252. *)
Definition gender_counts (filtered_df : DataFrame) : list (string * nat) :=
  value_counts (col Gender filtered_df).

(** Lines 268-270. *)
Definition district_counts (filtered_df : DataFrame)
  : option (list (string * nat)) :=
  if has_column "District" filtered_df
  then Some (value_counts (col District filtered_df))
  else None.

(** Line 296. *)
Definition transport_counts (filtered_df : DataFrame)
  : list (string * nat) :=
  value_counts (col Mode_of_Transport filtered_df).

End Counts.
Export Counts.

(** ** The age slider (app.py, lines 133-138) *)

Module Metrics.

(** [series.min()] and [series.max()] on a column of integers; an empty
    column has none ([NaN], on which [int(...)] raises). *)
Definition series_min (s : list Z) : option Z :=
  match s with
  | [] => None
  | x :: s' => Some (fold_right Z.min x s')
  end.

Definition series_max (s : list Z) : option Z :=
  match s with
  | [] => None
  | x :: s' => Some (fold_right Z.max x s')
  end.

(** The two ends offered by the age slider (lines 135). *)
Definition age_slider_bounds (df : DataFrame) : option (Z * Z) :=
  match series_min (col Age df), series_max (col Age df) with
  | Some lo, Some hi => Some (lo, hi)
  | _, _ => None
  end.

(** The slider's initial value (line 136). *)
Definition default_age_range : Z * Z := (20, 60).

(** Ages that fall in some bin of [age_bins]: 18 to 99. *)
Definition in_bins (a : Z) : bool := (18 <=? a) && (a <? 100).

End Metrics.
Export Metrics.

(** ** The earlier revision ([.ipynb_checkpoints/app-checkpoint.py]) *)

Module Checkpoint.

(** Line 24 of the checkpoint: the filter on age and gender alone. *)
Definition checkpoint_filter (df : DataFrame) (age_range : Z * Z)
    (gender_filter : list string) : DataFrame :=
  getitem_mask df
    (mask_and
       (mask_and (series_ge (col Age df) (fst age_range))
                 (series_le (col Age df) (snd age_range)))
       (isin (col Gender df) gender_filter)).

Section CheckpointLoad.
Context `{RS : RandomState}.

(** Lines 14-15 of the checkpoint: the read without a fallback. *)
Definition checkpoint_load_data (w : World) : outcome DataFrame * World :=
  (read_csv w csv_path, w).

End CheckpointLoad.

End Checkpoint.
Export Checkpoint.

(** * Properties *)

(** ** Masks and row selection *)

Section Masks.

Lemma boolean_index_map (p : Row -> bool) (l : list Row) :
  boolean_index l (map p l) = List.filter p l.
Proof.
  induction l as [|r l IH]; simpl; [reflexivity|].
  destruct (p r); now rewrite IH.
Qed.

Lemma mask_and_map {A} (p q : A -> bool) (l : list A) :
  mask_and (map p l) (map q l) = map (fun x => p x && q x) l.
Proof.
  unfold mask_and. induction l as [|x l IH]; simpl; [reflexivity|].
  now rewrite IH.
Qed.

Lemma filter_filter_andb {A} (p q : A -> bool) (l : list A) :
  List.filter q (List.filter p l) = List.filter (fun x => p x && q x) l.
Proof.
  induction l as [|x l IH]; simpl; [reflexivity|].
  destruct (p x); simpl; [destruct (q x)|]; now rewrite IH.
Qed.

Lemma filter_map_comm {A B} (f : A -> B) (p : B -> bool) (l : list A) :
  List.filter p (map f l) = map f (List.filter (fun x => p (f x)) l).
Proof.
  induction l as [|x l IH]; simpl; [reflexivity|].
  destruct (p (f x)); simpl; now rewrite IH.
Qed.

Lemma elem_of_List_filter {A} (p : A -> bool) (l : list A) (x : A) :
  x ∈ List.filter p l <-> x ∈ l /\ p x = true.
Proof.
  rewrite !list_elem_of_In. apply List.filter_In.
Qed.

Lemma elem_of_unique (s : list string) (x : string) :
  x ∈ unique s <-> x ∈ s.
Proof.
  induction s as [|y s IH]; simpl; [reflexivity|].
  rewrite !elem_of_cons, elem_of_List_filter, IH.
  rewrite negb_true_iff, bool_decide_eq_false.
  destruct (decide (x = y)); tauto.
Qed.

End Masks.

(** ** The filter is exact *)

Section Filter.

Variables (df : DataFrame) (age_range : Z * Z).
Variables (gender_filter : list string) (district_filter : option (list string)).
Variable transport_filter : list string.

Local Abbreviation base_mask :=
  (base_mask age_range gender_filter transport_filter).

Lemma base_mask_spec r :
  base_mask r = true <->
  fst age_range <= Age r <= snd age_range
  /\ Gender r ∈ gender_filter /\ Mode_of_Transport r ∈ transport_filter.
Proof.
  unfold base_mask.
  rewrite !andb_true_iff, !bool_decide_eq_true, !Z.leb_le. tauto.
Qed.

Lemma first_stage :
  getitem_mask df
    (mask_and
       (mask_and
          (mask_and (series_ge (col Age df) (fst age_range))
                    (series_le (col Age df) (snd age_range)))
          (isin (col Gender df) gender_filter))
       (isin (col Mode_of_Transport df) transport_filter))
  = {| columns := columns df; rows := List.filter base_mask (rows df) |}.
Proof.
  unfold getitem_mask. f_equal.
  unfold series_ge, series_le, isin, col. rewrite !List.map_map.
  rewrite !mask_and_map. apply boolean_index_map.
Qed.

Lemma apply_filters_rows :
  rows (apply_filters df age_range gender_filter district_filter
                      transport_filter)
  = List.filter
      (fun r => base_mask r
                && (negb (truthy district_filter && has_column "District" df)
                    || bool_decide (District r ∈ default [] district_filter)))
      (rows df).
Proof.
  unfold apply_filters. rewrite first_stage.
  destruct (truthy district_filter && has_column "District" df) eqn:E;
    unfold getitem_mask, col; cbn [rows negb orb].
  - unfold isin. rewrite List.map_map, boolean_index_map.
    apply filter_filter_andb.
  - apply List.filter_ext. intros r. now rewrite andb_true_r.
Qed.

Lemma apply_filters_columns :
  columns (apply_filters df age_range gender_filter district_filter
                         transport_filter) = columns df.
Proof.
  unfold apply_filters.
  destruct (truthy district_filter && has_column "District" df); reflexivity.
Qed.

End Filter.

(** C1. For every table and every valid criteria, [apply_filters] returns
    exactly the rows with [age_min <= Age <= age_max], [Gender] among the
    selected genders, [Mode_of_Transport] among the selected modes, and
    [District] among the selected districts unless that selection is empty
    or absent: the output is the sub-sequence of the input rows that
    satisfy the predicate, so every output row satisfies it and no input
    row that satisfies it is left out. *)
Theorem apply_filters_exact (df : DataFrame) (age_range : Z * Z)
    (gender_filter : list string) (district_filter : option (list string))
    (transport_filter : list string) :
  valid_criteria df district_filter ->
  let out := apply_filters df age_range gender_filter district_filter
                           transport_filter in
  let P := satisfies age_range gender_filter district_filter
                     transport_filter in
  rows out = filter P (rows df)
  /\ (forall r, r ∈ rows out -> P r)
  /\ (forall r, r ∈ rows df -> P r -> r ∈ rows out).
Proof.
  intros Hvalid out P.
  assert (Hrows : rows out = filter P (rows df)).
  { subst out. rewrite apply_filters_rows.
    induction (rows df) as [|r l IH]; [reflexivity|].
    rewrite filter_cons. simpl. rewrite IH.
    match goal with |- (if ?b then _ else _) = _ => destruct b eqn:Hb end.
    - rewrite decide_True; [reflexivity|].
      apply andb_true_iff in Hb as [Hm Hd].
      apply base_mask_spec in Hm as (Ha & Hg & Ht).
      unfold P, satisfies. repeat split; try tauto.
      apply orb_true_iff in Hd as [Hd|Hd].
      + right. apply negb_true_iff, andb_false_iff in Hd as [Hd|Hd];
          [exact Hd|]. now rewrite (Hvalid Hd).
      + left. now apply bool_decide_eq_true in Hd.
    - rewrite decide_False; [reflexivity|].
      intros (Ha & Hg & Ht & Hd).
      apply andb_false_iff in Hb as [Hb|Hb].
      + apply not_true_iff_false in Hb. apply Hb, base_mask_spec. tauto.
      + apply orb_false_iff in Hb as [Hb1 Hb2].
        apply negb_false_iff, andb_true_iff in Hb1 as [Hb1 _].
        apply bool_decide_eq_false in Hb2.
        destruct Hd as [Hd|Hd]; [tauto | congruence]. }
  split; [exact Hrows|]. rewrite Hrows. split.
  - intros r Hr. now apply list_elem_of_filter in Hr.
  - intros r Hr HP. now apply list_elem_of_filter.
Qed.

Lemma apply_filters_exact_witness :
  rows (apply_filters scenario_df (25, 55) ["Male"]
          (Some ["Downtown"; "Uptown"]) ["EV"; "Walk"])
  = filter (satisfies (25, 55) ["Male"] (Some ["Downtown"; "Uptown"])
              ["EV"; "Walk"])
      (rows scenario_df).
Proof.
  refine (proj1 (apply_filters_exact scenario_df (25, 55) ["Male"]
                   (Some ["Downtown"; "Uptown"]) ["EV"; "Walk"] _)).
  intros H. vm_compute in H. discriminate H.
Defined.

(** C10. An empty gender selection, or an empty transport selection,
    leaves no row; an empty district selection switches the district
    condition off, so the rows kept are those passing the age, gender and
    transport conditions, whatever their district. *)
Theorem empty_selection_asymmetry (df : DataFrame) (age_range : Z * Z)
    (gender_filter : list string) (district_filter : option (list string))
    (transport_filter : list string) :
  rows (apply_filters df age_range [] district_filter transport_filter) = []
  /\ rows (apply_filters df age_range gender_filter district_filter []) = []
  /\ rows (apply_filters df age_range gender_filter (Some []) transport_filter)
     = List.filter (base_mask age_range gender_filter transport_filter)
         (rows df).
Proof.
  assert (Hnil : forall (x : string), bool_decide (x ∈ @nil string) = false).
  { intros x. apply bool_decide_eq_false_2, not_elem_of_nil. }
  rewrite !apply_filters_rows. repeat split.
  - induction (rows df) as [|r l IH]; [reflexivity|]. simpl. rewrite IH.
    unfold base_mask. now rewrite Hnil, andb_false_r.
  - induction (rows df) as [|r l IH]; [reflexivity|]. simpl. rewrite IH.
    unfold base_mask. now rewrite Hnil, andb_false_r.
  - apply List.filter_ext. intros r. simpl. now rewrite andb_true_r.
Qed.

(** ** The worked scenario *)

Lemma scenario_rows (df : DataFrame) :
  rows (apply_filters df (25, 55) ["Male"] (all_districts df) (all_modes df))
  = List.filter (fun r => (25 <=? Age r) && (Age r <=? 55))
      (List.filter (fun r => bool_decide (Gender r = "Male")) (rows df)).
Proof.
  rewrite apply_filters_rows, filter_filter_andb.
  apply List.filter_ext_in. intros r Hr. apply list_elem_of_In in Hr.
  assert (Hm : bool_decide (Mode_of_Transport r ∈ all_modes df) = true).
  { apply bool_decide_eq_true, elem_of_unique.
    unfold col. now apply list_elem_of_fmap_2. }
  assert (Hd : negb (truthy (all_districts df) && has_column "District" df)
               || bool_decide (District r ∈ default [] (all_districts df))
               = true).
  { unfold all_districts, district_widget.
    destruct (has_column "District" df); [|reflexivity].
    apply orb_true_iff. right. apply bool_decide_eq_true, elem_of_unique.
    unfold col. now apply list_elem_of_fmap_2. }
  unfold base_mask. simpl fst. simpl snd. rewrite Hm, Hd, !andb_true_r.
  assert (Hg : bool_decide (Gender r ∈ ["Male"])
               = bool_decide (Gender r = "Male")).
  { apply bool_decide_ext. rewrite list_elem_of_singleton. reflexivity. }
  rewrite Hg. destruct (bool_decide (Gender r = "Male")).
  - now rewrite andb_true_r.
  - now rewrite andb_false_r.
Qed.

(** C3, as amended. On a table of ten rows whose male records have the
    ages 20, 30, 40, 50 and 60, the criteria [age_min = 25],
    [age_max = 55], genders [{"Male"}], with every transport mode and
    district selected, keep exactly three rows: the males aged 30, 40 and
    50 (the upper bound is inclusive and 50 <= 55). *)
Theorem scenario_three_rows (df : DataFrame) :
  len df = 10%nat ->
  male_ages df = [20; 30; 40; 50; 60] ->
  let out := apply_filters df (25, 55) ["Male"] (all_districts df)
                           (all_modes df) in
  col Age out = [30; 40; 50]
  /\ len out = 3%nat
  /\ Forall (fun r => Gender r = "Male") (rows out).
Proof.
  intros _ Hages out.
  assert (Hcol : col Age out = [30; 40; 50]).
  { unfold col, out. rewrite scenario_rows.
    rewrite <- (filter_map_comm Age (fun a => (25 <=? a) && (a <=? 55))).
    unfold male_ages in Hages. rewrite Hages. reflexivity. }
  split; [exact Hcol|]. split.
  - unfold len. unfold col in Hcol.
    rewrite <- (List.length_map Age), Hcol. reflexivity.
  - unfold out. rewrite scenario_rows. apply Forall_forall. intros r Hr.
    apply elem_of_List_filter in Hr as [Hr _].
    apply elem_of_List_filter in Hr as [_ Hr].
    now apply bool_decide_eq_true in Hr.
Qed.

Lemma scenario_three_rows_witness :
  col Age (apply_filters scenario_df (25, 55) ["Male"]
             (all_districts scenario_df) (all_modes scenario_df))
  = [30; 40; 50].
Proof.
  refine (proj1 (scenario_three_rows scenario_df _ _)); reflexivity.
Defined.

(** C3 as written fails: on the ten-row table [scenario_df], whose male
    records have the ages 20, 30, 40, 50 and 60, the result does not have
    two rows and its ages are not 30 and 40. *)
Lemma scenario_two_rows_refuted :
  len scenario_df = 10%nat
  /\ male_ages scenario_df = [20; 30; 40; 50; 60]
  /\ len (apply_filters scenario_df (25, 55) ["Male"]
            (all_districts scenario_df) (all_modes scenario_df)) <> 2%nat
  /\ col Age (apply_filters scenario_df (25, 55) ["Male"]
                (all_districts scenario_df) (all_modes scenario_df))
     <> [30; 40].
Proof.
  repeat split; try reflexivity; vm_compute; discriminate.
Qed.

(** ** Age groups *)

Ltac decide_edges :=
  repeat match goal with
  | |- context [?x <=? ?a] =>
      first [ rewrite (proj2 (Z.leb_le x a)) by lia
            | rewrite (proj2 (Z.leb_gt x a)) by lia ]
  end.

(** The bins of [pd.cut(..., right=False)], case by case. *)
Lemma cut_age_bins (a : Z) :
  cut a age_bins age_labels =
  if a <? 18 then None
  else if a <? 25 then Some "18-24"
  else if a <? 35 then Some "25-34"
  else if a <? 45 then Some "35-44"
  else if a <? 55 then Some "45-54"
  else if a <? 65 then Some "55-64"
  else if a <? 75 then Some "65-74"
  else if a <? 100 then Some "75+"
  else None.
Proof.
  unfold cut, searchsorted_right, age_bins, age_labels.
  repeat match goal with
  | |- context [?a <? ?k] => destruct (Z.ltb_spec a k)
  end; cbn [List.filter]; decide_edges; reflexivity.
Qed.

(** C2. Ages are binned into [18,25), [25,35), [35,45), [45,55), [55,65),
    [65,75) and [75,100) with the labels "18-24" ... "75+", every bin
    right-exclusive: 24 is "18-24", 25 is "25-34", 75 and 99 are "75+".
    The last bin is right-exclusive as well, so the age 100 (like any age
    of 100 or more, or below 18) gets no group at all, although the label
    of the last bin reads "75+". *)
Theorem bin_ages_boundaries :
  cut 24 age_bins age_labels = Some "18-24"
  /\ cut 25 age_bins age_labels = Some "25-34"
  /\ cut 75 age_bins age_labels = Some "75+"
  /\ cut 99 age_bins age_labels = Some "75+"
  /\ cut 100 age_bins age_labels = None
  /\ col Age_Group (bin_ages centenarian_df) = [None; Some "75+"]
  /\ (forall a, 100 <= a -> cut a age_bins age_labels = None)
  /\ (forall a, 75 <= a < 100 -> cut a age_bins age_labels = Some "75+").
Proof.
  repeat split; try reflexivity.
  - intros a Ha. rewrite cut_age_bins.
    repeat match goal with
    | |- context [?a <? ?k] => destruct (Z.ltb_spec a k); try lia
    end; reflexivity.
  - intros a Ha. rewrite cut_age_bins.
    repeat match goal with
    | |- context [?a <? ?k] => destruct (Z.ltb_spec a k); try lia
    end; reflexivity.
Qed.

Lemma zip_with_map_r {A B C} (f : A -> B -> C) (g : A -> B) (l : list A) :
  zip_with f l (map g l) = map (fun x => f x (g x)) l.
Proof.
  induction l as [|x l IH]; simpl; [reflexivity|]. now rewrite IH.
Qed.

Lemma bin_ages_rows (df : DataFrame) :
  rows (bin_ages df)
  = map (fun r => set_Age_Group r (cut (Age r) age_bins age_labels)) (rows df).
Proof.
  unfold bin_ages, setitem_Age_Group, cut_series, col; cbn [rows].
  rewrite List.map_map. apply zip_with_map_r.
Qed.

Lemma ev_age_df_groups (df : DataFrame) :
  col Age_Group (ev_age_df df)
  = map (fun r => cut (Age r) age_bins age_labels)
      (List.filter (fun r => bool_decide (Mode_of_Transport r = "EV"))
                   (rows df)).
Proof.
  unfold ev_age_df, getitem_mask, series_eq, col; cbn [rows].
  rewrite List.map_map, boolean_index_map, bin_ages_rows.
  rewrite filter_map_comm, List.map_map. reflexivity.
Qed.

(** C5. The EV-by-age-group counts of a run are computed from the whole
    loaded table: every row of [df] whose mode is "EV" is binned and
    counted, and the age slider and the gender, district and transport
    selections of the run have no influence on them. *)
Theorem ev_age_distribution_unfiltered {P : Pandas} (df : DataFrame)
    (age_range : Z * Z)
    (gender_filter : list string) (district_filter : option (list string))
    (transport_filter : list string) :
  ev_age_distribution
    (run df age_range gender_filter district_filter transport_filter)
  = value_counts_sort_index age_labels
      (map (fun r => cut (Age r) age_bins age_labels)
         (List.filter (fun r => bool_decide (Mode_of_Transport r = "EV"))
                      (rows df)))
  /\ forall age_range' gender_filter' district_filter' transport_filter',
       ev_age_distribution
         (run df age_range' gender_filter' district_filter' transport_filter')
       = ev_age_distribution
           (run df age_range gender_filter district_filter transport_filter).
Proof.
  split; [|reflexivity].
  unfold run; cbn [ev_age_distribution]. unfold ev_age_distribution_of.
  now rewrite ev_age_df_groups.
Qed.

(** On the sample table the slider [20, 60] with no gender selected shows
    no record at all, and the EV chart still counts the four EV users,
    the one aged 70 included. *)
Example ev_chart_ignores_filters {P : Pandas} :
  let d := run scenario_df (20, 60) [] (all_districts scenario_df)
               (all_modes scenario_df) in
  shown d = 0%nat
  /\ ev_age_distribution d
     = [("18-24", 0); ("25-34", 2); ("35-44", 0); ("45-54", 0);
        ("55-64", 1); ("65-74", 1); ("75+", 0)]%nat.
Proof. split; reflexivity. Qed.

(** ** Grouped means *)

Section GroupedMeans.

Variables (key : Row -> option string) (val : Row -> Q).

Lemma mean_is_nan (l : list Q) : mean l = None <-> l = [].
Proof. destruct l; simpl; split; intros H; congruence. Qed.

Lemma group_values_nil (l : list Row) (k : string) :
  group_values key val l k = [] <-> forall r, r ∈ l -> key r <> Some k.
Proof.
  unfold group_values. split.
  - intros H r Hr Hk. apply List.map_eq_nil in H.
    assert (Hin : r ∈ List.filter (fun r => bool_decide (key r = Some k)) l).
    { apply elem_of_List_filter. split; [exact Hr|].
      now apply bool_decide_eq_true. }
    rewrite H in Hin. now apply not_elem_of_nil in Hin.
  - intros H. induction l as [|r l IH]; [reflexivity|]. simpl.
    rewrite bool_decide_eq_false_2.
    + apply IH. intros r' Hr'. apply H. now right.
    + apply H. now left.
Qed.

Lemma elem_of_group_keys (l : list Row) (k : string) :
  k ∈ group_keys (map key l) <-> exists r, r ∈ l /\ key r = Some k.
Proof.
  unfold group_keys. rewrite merge_sort_Permutation, elem_of_unique.
  rewrite list_elem_of_omap. split.
  - intros (o & Ho & Hk). simpl in Hk. subst o.
    apply list_elem_of_fmap in Ho as (r & Hr & Hin). eauto.
  - intros (r & Hr & Hk). exists (key r). split; [|exact Hk].
    now apply list_elem_of_fmap_2.
Qed.

(** A plain-column group exists only for a key some row carries, and its
    mean is a number. *)
Lemma groupby_mean_observed (l : list Row) (k : string) (m : option Q) :
  (k, m) ∈ groupby_mean key val l ->
  (exists r, r ∈ l /\ key r = Some k) /\ m <> None.
Proof.
  unfold groupby_mean. intros H.
  apply list_elem_of_fmap in H as (k' & Heq & Hk'). inversion Heq; subst k' m.
  apply elem_of_group_keys in Hk'. split; [exact Hk'|].
  destruct Hk' as (r & Hr & Hk). rewrite mean_is_nan, group_values_nil.
  intros H. exact (H r Hr Hk).
Qed.

Lemma groupby_mean_complete (l : list Row) (r : Row) (k : string) :
  r ∈ l -> key r = Some k ->
  (k, mean (group_values key val l k)) ∈ groupby_mean key val l.
Proof.
  intros Hr Hk. unfold groupby_mean.
  apply (list_elem_of_fmap_2 (fun k => (k, mean (group_values key val l k)))).
  apply elem_of_group_keys. eauto.
Qed.

Lemma groupby_mean_nil : groupby_mean key val [] = [].
Proof. reflexivity. Qed.

(** With [observed=False] a categorical grouper yields one entry per
    category, [NaN] exactly for the categories without rows. *)
Lemma groupby_mean_categorical_all (categories : list string) (l : list Row) :
  let t := groupby_mean_categorical false categories key val l in
  map fst t = categories
  /\ forall k m, (k, m) ∈ t ->
       (m = None <-> forall r, r ∈ l -> key r <> Some k).
Proof.
  unfold groupby_mean_categorical. split.
  - rewrite List.map_map. simpl. apply List.map_id.
  - intros k m H.
    apply list_elem_of_fmap in H as (k' & Heq & _). inversion Heq; subst k' m.
    now rewrite mean_is_nan, group_values_nil.
Qed.

(** With [observed=True] (the default from pandas 3.0 on) only the
    categories that occur are kept. *)
Lemma groupby_mean_categorical_observed (categories : list string)
    (l : list Row) (k : string) (m : option Q) :
  (k, m) ∈ groupby_mean_categorical true categories key val l ->
  (exists r, r ∈ l /\ key r = Some k) /\ m <> None.
Proof.
  unfold groupby_mean_categorical. intros H.
  apply list_elem_of_fmap in H as (k' & Heq & Hk'). inversion Heq; subst k' m.
  apply elem_of_List_filter in Hk' as [_ Hk'].
  apply bool_decide_eq_true, list_elem_of_fmap in Hk' as (r & Hk & Hr).
  split; [eauto|]. rewrite mean_is_nan, group_values_nil.
  intros H. exact (H r Hr (eq_sym Hk)).
Qed.

End GroupedMeans.

Lemma sort_values_elem (t : list (string * option Q)) (e : string * option Q) :
  e ∈ sort_values t <-> e ∈ t.
Proof. unfold sort_values. now rewrite merge_sort_Permutation. Qed.

Lemma bin_ages_group (df : DataFrame) (k : string) :
  (forall r, r ∈ rows (bin_ages df) -> Age_Group r <> Some k)
  <-> (forall r, r ∈ rows df -> cut (Age r) age_bins age_labels <> Some k).
Proof.
  rewrite bin_ages_rows. split.
  - intros H r Hr.
    apply (H (set_Age_Group r (cut (Age r) age_bins age_labels))).
    now apply (list_elem_of_fmap_2
                 (fun r => set_Age_Group r (cut (Age r) age_bins age_labels))).
  - intros H r Hr. apply list_elem_of_fmap in Hr as (r0 & -> & Hr0).
    simpl. now apply H.
Qed.

(** Line 490 under the default [observed=False], on a table with a
    [Recycling_Rate] column and no [Age_Group] column of its own: one
    entry per age label, [NaN] for every label without a row. *)
Lemma recycling_by_age_unobserved {P : Pandas} (filtered_df : DataFrame) :
  observed_default = false ->
  has_column "Recycling_Rate" filtered_df = true ->
  has_column "Age_Group" filtered_df = false ->
  exists t,
    recycling_by_age filtered_df = Some t
    /\ map fst t = age_labels
    /\ (forall k, k ∈ age_labels ->
          (forall r, r ∈ rows filtered_df ->
                     cut (Age r) age_bins age_labels <> Some k) ->
          (k, None) ∈ t)
    /\ (rows filtered_df = [] -> t = map (fun k => (k, None)) age_labels).
Proof.
  intros Hobs Hrec Hage. unfold recycling_by_age.
  rewrite Hobs, Hrec, Hage. cbn [negb]. eexists. split; [reflexivity|].
  destruct (groupby_mean_categorical_all Age_Group Recycling_Rate age_labels
              (rows (bin_ages filtered_df))) as [Hkeys _].
  split; [exact Hkeys|]. split.
  - intros k Hk Hnone. unfold groupby_mean_categorical.
    assert (Hnil : group_values Age_Group Recycling_Rate
                     (rows (bin_ages filtered_df)) k = []).
    { apply group_values_nil, bin_ages_group, Hnone. }
    apply (list_elem_of_fmap_2'
             (fun k => (k, mean (group_values Age_Group Recycling_Rate
                                   (rows (bin_ages filtered_df)) k)))
             age_labels k); [exact Hk|].
    now rewrite Hnil.
  - intros Hnil. unfold groupby_mean_categorical.
    rewrite bin_ages_rows, Hnil. reflexivity.
Qed.

(** The same line under the default [observed=True]: an entry only for a
    label that some row falls in, and no entry on an empty table. *)
Lemma recycling_by_age_observed {P : Pandas} (filtered_df : DataFrame) :
  observed_default = true ->
  has_column "Recycling_Rate" filtered_df = true ->
  has_column "Age_Group" filtered_df = false ->
  exists t,
    recycling_by_age filtered_df = Some t
    /\ (forall k m, (k, m) ∈ t ->
          exists r, r ∈ rows filtered_df
                    /\ cut (Age r) age_bins age_labels = Some k)
    /\ (rows filtered_df = [] -> t = []).
Proof.
  intros Hobs Hrec Hage. unfold recycling_by_age.
  rewrite Hobs, Hrec, Hage. cbn [negb]. eexists. split; [reflexivity|].
  split.
  - intros k m H.
    apply groupby_mean_categorical_observed in H as [(r & Hr & Hk) _].
    rewrite bin_ages_rows in Hr.
    apply list_elem_of_fmap in Hr as (r0 & -> & Hr0).
    exists r0. split; [exact Hr0 | exact Hk].
  - intros Hnil. unfold groupby_mean_categorical.
    rewrite bin_ages_rows, Hnil. reflexivity.
Qed.

(** C4. A grouped mean keyed by a plain column (the means by
    [Mode_of_Transport], [Gender] and [District]) has an entry only for a
    category that some row carries and is empty on an empty filtered
    table, as the claim says. The mean of [Recycling_Rate] by [Age_Group]
    (line 490) groups on the categorical column made by [pd.cut] and
    leaves [observed] to the installed pandas. With the default of
    pandas 3 it also omits the empty groups. With the default of pandas
    1.x and 2.x it does not: it has an entry for each of the seven age
    labels, [NaN] for every label without a row; on the sample table with
    no gender selected the filtered table is empty and the chart holds
    seven [NaN] entries. *)
Theorem mean_by_empty_groups :
  (forall key val l k m,
      (k, m) ∈ groupby_mean key val l -> exists r, r ∈ l /\ key r = Some k)
  /\ (forall filtered_df,
        rows filtered_df = [] ->
        transport_carbon filtered_df = [] /\ gender_steps filtered_df = []
        /\ (has_column "District" filtered_df = true ->
            district_carbon filtered_df = Some []))
  /\ (forall filtered_df,
        has_column "Recycling_Rate" filtered_df = true ->
        has_column "Age_Group" filtered_df = false ->
        exists t,
          recycling_by_age (P := pandas_3x) filtered_df = Some t
          /\ (forall k m, (k, m) ∈ t ->
                exists r, r ∈ rows filtered_df
                          /\ cut (Age r) age_bins age_labels = Some k)
          /\ (rows filtered_df = [] -> t = []))
  /\ (forall filtered_df,
        has_column "Recycling_Rate" filtered_df = true ->
        has_column "Age_Group" filtered_df = false ->
        exists t,
          recycling_by_age (P := pandas_2x) filtered_df = Some t
          /\ map fst t = age_labels
          /\ (forall k, k ∈ age_labels ->
                (forall r, r ∈ rows filtered_df ->
                           cut (Age r) age_bins age_labels <> Some k) ->
                (k, None) ∈ t)
          /\ (rows filtered_df = [] ->
              t = map (fun k => (k, None)) age_labels))
  /\ (let filtered_df :=
        apply_filters scenario_df (20, 60) [] (all_districts scenario_df)
                      (all_modes scenario_df) in
      rows filtered_df = []
      /\ transport_carbon filtered_df = []
      /\ recycling_by_age (P := pandas_3x) filtered_df = Some []
      /\ recycling_by_age (P := pandas_2x) filtered_df
         = Some [("18-24", None); ("25-34", None); ("35-44", None);
                 ("45-54", None); ("55-64", None); ("65-74", None);
                 ("75+", None)]).
Proof.
  split.
  { intros key val l k m H. now apply groupby_mean_observed in H as [H _]. }
  split.
  { intros fd Hnil. unfold transport_carbon, gender_steps, district_carbon.
    rewrite Hnil. repeat split. intros ->. reflexivity. }
  split.
  { intros fd. now apply (recycling_by_age_observed (P := pandas_3x)). }
  split.
  { intros fd. now apply (recycling_by_age_unobserved (P := pandas_2x)). }
  repeat split.
Qed.

(** Under the default of pandas 1.x and 2.x the empty groups also show
    when records are shown: with every record of the sample aged 20 to 60
    selected, the bins "65-74" and "75+" have no row and are kept with a
    [NaN] mean, and under the default of pandas 3 they are left out. *)
Example empty_age_groups_depend_on_pandas :
  let filtered_df :=
    apply_filters scenario_df (20, 60) (all_genders scenario_df)
                  (all_districts scenario_df) (all_modes scenario_df) in
  (exists t, recycling_by_age (P := pandas_2x) filtered_df = Some t
             /\ ("65-74", None) ∈ t /\ ("75+", None) ∈ t)
  /\ (exists t, recycling_by_age (P := pandas_3x) filtered_df = Some t
                /\ map fst t = ["18-24"; "25-34"; "35-44"; "45-54";
                                "55-64"]).
Proof.
  split.
  - eexists. split; [vm_compute; reflexivity|].
    split; apply list_elem_of_In; simpl; tauto.
  - eexists. split; [vm_compute; reflexivity|]. reflexivity.
Qed.

(** ** The data source *)

Lemma lcg_draws_length (n : nat) (s : Z) : length (lcg_draws n s).1 = n.
Proof.
  revert s. induction n as [|n IH]; intros s; simpl; [reflexivity|].
  specialize (IH (lcg_next s)). destruct (lcg_draws n (lcg_next s)).
  simpl in *. now rewrite IH.
Qed.

Lemma lcg_randint_length low high size g :
  length (lcg_randint low high size g).1 = size.
Proof.
  unfold lcg_randint. pose proof (lcg_draws_length size g) as H.
  destruct (lcg_draws size g). simpl in *. now rewrite List.length_map.
Qed.

Lemma lcg_randint_range low high size g :
  low < high ->
  Forall (fun x => low <= x < high) (lcg_randint low high size g).1.
Proof.
  intros Hlt. unfold lcg_randint. destruct (lcg_draws size g) as [l s].
  simpl. apply Forall_forall. intros x Hx.
  apply list_elem_of_fmap in Hx as (y & -> & _).
  pose proof (Z.mod_pos_bound y (high - low)). lia.
Qed.

Lemma lcg_choice_length a size g : length (lcg_choice a size g).1 = size.
Proof.
  unfold lcg_choice. pose proof (lcg_draws_length size g) as H.
  destruct (lcg_draws size g). simpl in *. now rewrite List.length_map.
Qed.

Lemma lcg_choice_elem (a : list string) size g :
  a <> [] -> Forall (fun x => x ∈ a) (lcg_choice a size g).1.
Proof.
  intros Ha. unfold lcg_choice. destruct (lcg_draws size g) as [l s].
  simpl. apply Forall_forall. intros x Hx.
  apply list_elem_of_fmap in Hx as (y & -> & _).
  apply list_elem_of_In, List.nth_In.
  assert (0 < Z.of_nat (length a)) by (destruct a; simpl; [congruence | lia]).
  pose proof (Z.mod_pos_bound y (Z.of_nat (length a))). lia.
Qed.

Lemma lcg_normal_length loc scale size g :
  length (lcg_normal loc scale size g).1 = size.
Proof.
  unfold lcg_normal. pose proof (lcg_draws_length size g) as H.
  destruct (lcg_draws size g). simpl in *. now rewrite List.length_map.
Qed.

Lemma lcg_exponential_length scale size g :
  length (lcg_exponential scale size g).1 = size.
Proof.
  unfold lcg_exponential. pose proof (lcg_draws_length size g) as H.
  destruct (lcg_draws size g). simpl in *. now rewrite List.length_map.
Qed.

Definition lcg_RandomState : RandomState :=
  {| rng := Z;
     seed := fun k _ => k;
     randint := lcg_randint;
     choice := lcg_choice;
     normal := lcg_normal;
     exponential := lcg_exponential;
     seed_reset := fun _ _ _ => eq_refl;
     randint_length := lcg_randint_length;
     randint_range := lcg_randint_range;
     choice_length := lcg_choice_length;
     choice_elem := lcg_choice_elem;
     normal_length := lcg_normal_length;
     exponential_length := lcg_exponential_length |}.

Lemma nth_Forall {A} (P : A -> Prop) (l : list A) (d : A) (i : nat) :
  Forall P l -> (i < length l)%nat -> P (nth i l d).
Proof.
  intros HP Hi. rewrite Forall_forall in HP.
  apply HP, list_elem_of_In, List.nth_In, Hi.
Qed.

Lemma clip_range (s : list Q) (lo hi : Q) :
  (lo <= hi)%Q -> Forall (fun x => (lo <= x <= hi)%Q) (clip s lo hi).
Proof.
  intros Hle. unfold clip. apply Forall_forall. intros x Hx.
  apply list_elem_of_fmap in Hx as (y & -> & _). split.
  - apply Q.min_glb; [apply Q.le_max_r | exact Hle].
  - apply Q.le_min_r.
Qed.

Lemma clip_length (s : list Q) (lo hi : Q) : length (clip s lo hi) = length s.
Proof. unfold clip. apply List.length_map. Qed.

Section Generated.
Context `{RS : RandomState}.

(** C7. [generate_mock_data] reseeds the global generator with 42 before
    drawing, so its output does not depend on the generator's state at the
    call: any two calls with the same [n] return the same table (same rows
    in the same order, same value in every column), in particular two
    successive calls of [generate_mock_data(300)]. *)
Theorem generate_mock_data_deterministic (n : nat) (g1 g2 : rng) :
  (generate_mock_data n g1).1 = (generate_mock_data n g2).1
  /\ (generate_mock_data 300 (generate_mock_data 300 g1).2).1
     = (generate_mock_data 300 g1).1.
Proof.
  unfold generate_mock_data. split.
  - now rewrite (seed_reset 42 g1 g2).
  - generalize (seed_reset 42 g1). intros Hseed. now rewrite <- Hseed.
Qed.

(** C8. Every row of [generate_mock_data(n)] has [Age] in [18, 80),
    [Steps_Walked] in [1000, 15000), [Digital_Service_Usage] in 1..10,
    [Carbon_Footprint_kgCO2] in [0, 30], [Sleep_Hours] in [4, 10],
    [Social_Media_Hours] in [0, 10] and [Recycling_Rate] in [0, 100];
    and there are [n] such rows. *)
Theorem generate_mock_data_domains (n : nat) (g : rng) :
  Forall (fun r =>
            18 <= Age r < 80
            /\ 1000 <= Steps_Walked r < 15000
            /\ 1 <= Digital_Service_Usage r <= 10
            /\ (0 <= Carbon_Footprint_kgCO2 r <= 30)%Q
            /\ (4 <= Sleep_Hours r <= 10)%Q
            /\ (0 <= Social_Media_Hours r <= 10)%Q
            /\ (0 <= Recycling_Rate r <= 100)%Q)
         (rows (generate_mock_data n g).1)
  /\ len (generate_mock_data n g).1 = n.
Proof.
  unfold generate_mock_data.
  pose proof (randint_length 18 80 n (seed 42 g)) as Lage.
  pose proof (randint_range 18 80 n (seed 42 g) ltac:(lia)) as Rage.
  destruct (randint 18 80 n (seed 42 g)) as [age g1].
  destruct (choice _ n g1) as [gender g2].
  destruct (choice _ n g2) as [district g3].
  destruct (choice _ n g3) as [mode g4].
  pose proof (normal_length 10 5 n g4) as Lcarbon.
  destruct (normal 10 5 n g4) as [carbon g5].
  pose proof (randint_length 1000 15000 n g5) as Lsteps.
  pose proof (randint_range 1000 15000 n g5 ltac:(lia)) as Rsteps.
  destruct (randint 1000 15000 n g5) as [steps g6].
  pose proof (normal_length 7 (3 # 2) n g6) as Lsleep.
  destruct (normal 7 (3 # 2) n g6) as [sleep g7].
  pose proof (exponential_length 2 n g7) as Lsocial.
  destruct (exponential 2 n g7) as [social g8].
  destruct (choice _ n g8) as [public g9].
  pose proof (normal_length 65 20 n g9) as Lrec.
  destruct (normal 65 20 n g9) as [recycling g10].
  pose proof (randint_length 1 10 n g10) as Ldig.
  pose proof (randint_range 1 10 n g10 ltac:(lia)) as Rdig.
  destruct (randint 1 10 n g10) as [digital g11].
  cbn [fst snd] in *. split.
  - apply Forall_forall. intros r Hr. unfold from_columns in Hr.
    cbn [rows] in Hr. apply list_elem_of_fmap in Hr as (i & -> & Hi).
    apply elem_of_seq in Hi. cbn [Age Steps_Walked Digital_Service_Usage
      Carbon_Footprint_kgCO2 Sleep_Hours Social_Media_Hours Recycling_Rate].
    repeat split.
    all: try (apply (nth_Forall (fun x => 18 <= x) age); [|lia];
              eapply Forall_impl; [exact Rage | simpl; intros; lia]).
    all: try (apply (nth_Forall (fun x => x < 80) age); [|lia];
              eapply Forall_impl; [exact Rage | simpl; intros; lia]).
    all: try (apply (nth_Forall (fun x => 1000 <= x) steps); [|lia];
              eapply Forall_impl; [exact Rsteps | simpl; intros; lia]).
    all: try (apply (nth_Forall (fun x => x < 15000) steps); [|lia];
              eapply Forall_impl; [exact Rsteps | simpl; intros; lia]).
    all: try (apply (nth_Forall (fun x => 1 <= x) digital); [|lia];
              eapply Forall_impl; [exact Rdig | simpl; intros; lia]).
    all: try (apply (nth_Forall (fun x => x <= 10) digital); [|lia];
              eapply Forall_impl; [exact Rdig | simpl; intros; lia]).
    all: match goal with
         | |- (?lo <= nth ?i (clip ?s ?lo ?hi) _)%Q =>
             apply (nth_Forall (fun x => (lo <= x)%Q) (clip s lo hi));
             [ eapply Forall_impl;
               [ apply (clip_range s lo hi); now apply Qle_bool_imp_le
               | simpl; intros ? [? ?]; assumption ]
             | rewrite clip_length; lia ]
         | |- (nth ?i (clip ?s ?lo ?hi) _ <= ?hi)%Q =>
             apply (nth_Forall (fun x => (x <= hi)%Q) (clip s lo hi));
             [ eapply Forall_impl;
               [ apply (clip_range s lo hi); now apply Qle_bool_imp_le
               | simpl; intros ? [? ?]; assumption ]
             | rewrite clip_length; lia ]
         end.
  - unfold len, from_columns. cbn [rows].
    now rewrite List.length_map, List.length_seq.
Qed.

(** [randint(1, 10)] excludes its upper end: the usage score of a
    generated row is never 10. *)
Lemma generate_mock_data_digital_below_ten (n : nat) (g : rng) :
  Forall (fun r => 1 <= Digital_Service_Usage r < 10)
         (rows (generate_mock_data n g).1).
Proof.
  unfold generate_mock_data.
  destruct (randint 18 80 n (seed 42 g)) as [age g1].
  destruct (choice _ n g1) as [gender g2].
  destruct (choice _ n g2) as [district g3].
  destruct (choice _ n g3) as [mode g4].
  destruct (normal 10 5 n g4) as [carbon g5].
  destruct (randint 1000 15000 n g5) as [steps g6].
  destruct (normal 7 (3 # 2) n g6) as [sleep g7].
  destruct (exponential 2 n g7) as [social g8].
  destruct (choice _ n g8) as [public g9].
  destruct (normal 65 20 n g9) as [recycling g10].
  pose proof (randint_length 1 10 n g10) as Ldig.
  pose proof (randint_range 1 10 n g10 ltac:(lia)) as Rdig.
  destruct (randint 1 10 n g10) as [digital g11].
  cbn [fst snd] in *. apply Forall_forall. intros r Hr.
  unfold from_columns in Hr. cbn [rows] in Hr.
  apply list_elem_of_fmap in Hr as (i & -> & Hi). apply elem_of_seq in Hi.
  cbn [Digital_Service_Usage].
  apply (nth_Forall (fun x => 1 <= x < 10) digital); [exact Rdig|lia].
Qed.

End Generated.

(** A run of the toy generator: the state matters, a second draw without
    reseeding differs from the first. *)
Example lcg_state_matters :
  let first := lcg_randint 18 80 3 42 in
  first.1 = [65; 32; 57]
  /\ (lcg_randint 18 80 3 first.2).1 <> first.1.
Proof. vm_compute. split; [reflexivity | discriminate]. Qed.

Definition world_with_file : World (RS := lcg_RandomState) :=
  @mkWorld lcg_RandomState
    (fun path => if String.eqb path csv_path then Returned scenario_df
                 else Raised FileNotFoundError)
    7 [].

Definition world_without_file : World (RS := lcg_RandomState) :=
  @mkWorld lcg_RandomState (fun _ => Raised FileNotFoundError) 7 [].

Section Loading.
Context `{RS : RandomState}.

(** C6. When [pd.read_csv] returns a table for the fixed path,
    [load_data] returns that table and shows nothing. When the read
    raises [FileNotFoundError], [load_data] shows the mock-data notice
    once, returns [generate_mock_data(300)] and raises nothing. *)
Theorem load_data_fallback (w : World) :
  (forall df, read_csv w csv_path = Returned df ->
              load_data w = (Returned df, w))
  /\ (read_csv w csv_path = Raised FileNotFoundError ->
      exists w',
        load_data w = (Returned (generate_mock_data 300 (np_random w)).1, w')
        /\ info_log w' = (info_log w ++ [mock_notice])%list
        /\ read_csv w' = read_csv w).
Proof.
  split.
  - intros df H. unfold load_data. now rewrite H.
  - intros H. unfold load_data. rewrite H. cbn [np_random].
    destruct (generate_mock_data 300 (np_random w)) as [df g].
    eexists. split; [reflexivity|]. split; reflexivity.
Qed.

(** Any other failure of the read is not handled: it propagates. *)
Lemma load_data_other_error (w : World) (what : string) :
  read_csv w csv_path = Raised (OtherError what) ->
  load_data w = (Raised (OtherError what), w).
Proof. intros H. unfold load_data. now rewrite H. Qed.

End Loading.

Lemma load_data_fallback_witness :
  load_data world_with_file = (Returned scenario_df, world_with_file)
  /\ exists w',
       load_data world_without_file
       = (Returned (generate_mock_data (RS := lcg_RandomState) 300 7).1, w')
       /\ info_log w' = [mock_notice].
Proof.
  split.
  - apply (proj1 (load_data_fallback world_with_file)). reflexivity.
  - destruct (proj2 (load_data_fallback world_without_file) eq_refl)
      as (w' & Hload & Hlog & _).
    exists w'. split; [exact Hload | exact Hlog].
Defined.

(** ** The loaded table is never modified *)

Section Objects.

Lemma unchanged_refl st : unchanged st st.
Proof. intros l d H. exact H. Qed.

Lemma unchanged_trans st1 st2 st3 :
  unchanged st1 st2 -> unchanged st2 st3 -> unchanged st1 st3.
Proof. intros H12 H23 l d H. apply H23, H12, H. Qed.

Lemma new_object_fresh (d : DataFrame) (st : PyState) :
  exists l,
    new_object d st
    = Some (l, {| heap := <[l:=d]> (heap st); globals := globals st |})
    /\ heap st !! l = None.
Proof.
  exists (fresh (dom (heap st))). split; [reflexivity|].
  apply not_elem_of_dom, is_fresh.
Qed.

Lemma insert_fresh_unchanged (st : PyState) (l : loc) (d : DataFrame)
    (g : gmap string loc) :
  heap st !! l = None ->
  unchanged st {| heap := <[l:=d]> (heap st); globals := g |}.
Proof.
  intros Hl l0 d0 H0. cbn [heap].
  rewrite lookup_insert_ne; [exact H0|]. congruence.
Qed.

(** Lines 168-176 bind [filtered_df] to a new object holding the filtered
    table and touch no object that existed before. *)
Lemma stmt_apply_filters_run (st : PyState) (l : loc) (d : DataFrame)
    (age_range : Z * Z) (gender_filter : list string)
    (district_filter : option (list string))
    (transport_filter : list string) :
  globals st !! "df" = Some l ->
  heap st !! l = Some d ->
  exists st' lf,
    stmt_apply_filters age_range gender_filter district_filter
                       transport_filter st = Some (tt, st')
    /\ unchanged st st'
    /\ globals st' !! "df" = Some l
    /\ globals st' !! "filtered_df" = Some lf
    /\ heap st !! lf = None
    /\ heap st' !! lf
       = Some (apply_filters d age_range gender_filter district_filter
                             transport_filter).
Proof.
  intros Hdf Hd. unfold stmt_apply_filters, apply_filters.
  unfold mbind, Py_bind, name, deref. rewrite Hdf, Hd.
  set (first := getitem_mask d _).
  destruct (new_object_fresh first st) as (l1 & -> & Hl1).
  unfold assign at 1. cbn [heap globals].
  destruct (truthy district_filter && has_column "District" d);
    cbv beta; cbn [heap globals].
  - rewrite lookup_insert_eq. cbn [heap]. rewrite lookup_insert_eq.
    set (st1 := {| heap := <[l1:=first]> (heap st);
                   globals := <["filtered_df":=l1]> (globals st) |}).
    destruct (new_object_fresh
                (getitem_mask first
                   (isin (col District first) (default [] district_filter)))
                st1) as (l2 & -> & Hl2).
    unfold assign. cbn [heap globals]. eexists _, l2.
    split; [reflexivity|]. cbn [heap globals].
    assert (Hne : l2 <> l1).
    { intros ->. subst st1. cbn [heap] in Hl2.
      rewrite lookup_insert_eq in Hl2. discriminate. }
    assert (Hl2' : heap st !! l2 = None).
    { subst st1. cbn [heap] in Hl2.
      now rewrite lookup_insert_ne in Hl2 by congruence. }
    subst st1. cbn [heap globals]. repeat split.
    + intros l0 d0 H0. cbn [heap].
      rewrite !lookup_insert_ne by congruence. exact H0.
    + rewrite !lookup_insert_ne by discriminate. exact Hdf.
    + apply lookup_insert_eq.
    + exact Hl2'.
    + apply lookup_insert_eq.
  - unfold mret, Py_ret. eexists _, l1. split; [reflexivity|].
    cbn [heap globals]. repeat split.
    + now apply insert_fresh_unchanged.
    + rewrite lookup_insert_ne by discriminate. exact Hdf.
    + apply lookup_insert_eq.
    + exact Hl1.
    + apply lookup_insert_eq.
Qed.

(** Lines 346-347 bin the ages on a copy: [df_age_group] is a new object
    and the object of [df] is not touched. *)
Lemma stmt_age_group_run (st : PyState) (l : loc) (d : DataFrame) :
  globals st !! "df" = Some l ->
  heap st !! l = Some d ->
  exists st' lg,
    stmt_age_group st = Some (tt, st')
    /\ unchanged st st'
    /\ globals st' !! "df" = Some l
    /\ (forall x, x <> "df_age_group" -> globals st' !! x = globals st !! x)
    /\ globals st' !! "df_age_group" = Some lg
    /\ heap st !! lg = None
    /\ heap st' !! lg = Some (bin_ages d).
Proof.
  intros Hdf Hd. unfold stmt_age_group.
  unfold mbind, Py_bind, name, deref. rewrite Hdf, Hd.
  destruct (new_object_fresh d st) as (l1 & -> & Hl1).
  unfold assign, update_object. cbn [heap globals].
  rewrite lookup_insert_eq. cbn [heap]. rewrite lookup_insert_eq.
  cbn [heap globals]. rewrite lookup_insert_eq.
  eexists _, l1. split; [reflexivity|]. cbn [heap globals]. repeat split.
  - intros l0 d0 H0. cbn [heap].
    rewrite !lookup_insert_ne by congruence. exact H0.
  - rewrite lookup_insert_ne by discriminate. exact Hdf.
  - intros x Hx. now rewrite lookup_insert_ne.
  - apply lookup_insert_eq.
  - exact Hl1.
  - rewrite insert_insert_eq. apply lookup_insert_eq.
Qed.

(** Lines 481-488 work on a copy of [filtered_df] in the same way. *)
Lemma stmt_recycling_age_group_run (st : PyState) (l : loc) (d : DataFrame) :
  globals st !! "filtered_df" = Some l ->
  heap st !! l = Some d ->
  exists st', stmt_recycling_age_group st = Some (tt, st') /\ unchanged st st'.
Proof.
  intros Hdf Hd. unfold stmt_recycling_age_group.
  unfold mbind, Py_bind, name, deref. rewrite Hdf, Hd.
  destruct (new_object_fresh d st) as (l1 & -> & Hl1).
  unfold assign, update_object. cbn [heap globals].
  rewrite lookup_insert_eq. cbn [heap]. rewrite lookup_insert_eq.
  destruct (negb (has_column "Age_Group" d)); cbn [heap globals].
  - rewrite lookup_insert_eq. eexists. split; [reflexivity|].
    intros l0 d0 H0. cbn [heap].
    rewrite !lookup_insert_ne by congruence. exact H0.
  - eexists. split; [reflexivity|]. now apply insert_fresh_unchanged.
Qed.

(** The earlier revision of the script did write to the loaded table:
    after its binning statement the object of [df] has an [Age_Group]
    column. *)
Lemma stmt_age_group_checkpoint_run (st : PyState) (l : loc) (d : DataFrame) :
  globals st !! "df" = Some l ->
  heap st !! l = Some d ->
  exists st',
    stmt_age_group_checkpoint st = Some (tt, st')
    /\ heap st' !! l = Some (bin_ages d).
Proof.
  intros Hdf Hd. unfold stmt_age_group_checkpoint.
  unfold mbind, Py_bind, name, deref, update_object. rewrite Hdf, Hd.
  cbn [heap]. rewrite Hd. eexists. split; [reflexivity|].
  cbn [heap]. apply lookup_insert_eq.
Qed.

End Objects.

(** C9. Running the filter of lines 168-176, and then the age binning of
    lines 346-347, never writes to the loaded table: [df] names the same
    object as before and that object holds the same table, every other
    object that existed is unchanged too, and the results are new
    objects: [filtered_df] holds [apply_filters] of the table and
    [df_age_group] the binned copy. *)
Theorem apply_filters_pure (st : PyState) (l : loc) (d : DataFrame)
    (age_range : Z * Z) (gender_filter : list string)
    (district_filter : option (list string))
    (transport_filter : list string) :
  globals st !! "df" = Some l ->
  heap st !! l = Some d ->
  exists st' lf lg,
    stmt_derive age_range gender_filter district_filter transport_filter st
    = Some (tt, st')
    /\ unchanged st st'
    /\ globals st' !! "df" = Some l
    /\ heap st' !! l = Some d
    /\ globals st' !! "filtered_df" = Some lf
    /\ lf <> l
    /\ heap st' !! lf
       = Some (apply_filters d age_range gender_filter district_filter
                             transport_filter)
    /\ globals st' !! "df_age_group" = Some lg
    /\ lg <> l
    /\ heap st' !! lg = Some (bin_ages d).
Proof.
  intros Hdf Hd.
  destruct (stmt_apply_filters_run st l d age_range gender_filter
              district_filter transport_filter Hdf Hd)
    as (st1 & lf & Hrun1 & Hun1 & Hdf1 & Hf1 & Hfresh1 & Hobj1).
  destruct (stmt_age_group_run st1 l d Hdf1 (Hun1 _ _ Hd))
    as (st2 & lg & Hrun2 & Hun2 & Hdf2 & Hnames & Hg2 & Hfresh2 & Hobj2).
  exists st2, lf, lg. unfold stmt_derive, mbind, Py_bind.
  rewrite Hrun1, Hrun2. split; [reflexivity|].
  split; [now apply (unchanged_trans st st1 st2)|].
  split; [exact Hdf2|].
  split; [apply Hun2, Hun1, Hd|].
  split; [rewrite Hnames by discriminate; exact Hf1|].
  split; [intros ->; congruence|].
  split; [apply Hun2, Hobj1|].
  split; [exact Hg2|].
  split; [|exact Hobj2].
  intros ->. pose proof (Hun1 _ _ Hd) as H. congruence.
Qed.

Definition session : PyState :=
  {| heap := {[ 1%positive := scenario_df ]};
     globals := {[ "df" := 1%positive ]} |}.

Lemma apply_filters_pure_witness :
  exists st',
    stmt_derive (25, 55) ["Male"] (all_districts scenario_df)
                (all_modes scenario_df) session = Some (tt, st')
    /\ heap st' !! 1%positive = Some scenario_df.
Proof.
  destruct (apply_filters_pure session 1%positive scenario_df (25, 55)
              ["Male"] (all_districts scenario_df) (all_modes scenario_df))
    as (st' & lf & lg & Hrun & _ & _ & Hd & _).
  - reflexivity.
  - reflexivity.
  - exists st'. split; [exact Hrun | exact Hd].
Defined.

(** * Further properties of the script *)

(** ** The filter as an operation on tables *)

Lemma DataFrame_eq (a b : DataFrame) :
  columns a = columns b -> rows a = rows b -> a = b.
Proof. destruct a, b. simpl. now intros -> ->. Qed.

Lemma filter_idem {A} (p : A -> bool) (l : list A) :
  List.filter p (List.filter p l) = List.filter p l.
Proof.
  rewrite filter_filter_andb. apply List.filter_ext.
  intros x. now destruct (p x).
Qed.

Lemma filter_all {A} (p : A -> bool) (l : list A) :
  (forall x, x ∈ l -> p x = true) -> List.filter p l = l.
Proof.
  induction l as [|x l IH]; intros H; simpl; [reflexivity|].
  rewrite (H x) by now left. f_equal. apply IH. intros y Hy. apply H. now right.
Qed.

Lemma filter_sublist_mono {A} (p q : A -> bool) (l : list A) :
  (forall x, p x = true -> q x = true) ->
  List.filter p l `sublist_of` List.filter q l.
Proof.
  intros Hpq. induction l as [|x l IH]; simpl; [constructor|].
  destruct (p x) eqn:Hp.
  - rewrite (Hpq x Hp). now constructor.
  - destruct (q x); [now constructor | exact IH].
Qed.

Lemma filter_sublist {A} (p : A -> bool) (l : list A) :
  List.filter p l `sublist_of` l.
Proof.
  induction l as [|x l IH]; simpl; [constructor|].
  destruct (p x); now constructor.
Qed.

Lemma has_column_apply_filters name df age_range gender_filter district_filter
    transport_filter :
  has_column name
    (apply_filters df age_range gender_filter district_filter transport_filter)
  = has_column name df.
Proof. unfold has_column. now rewrite apply_filters_columns. Qed.

(** X1. Filtering an already filtered table with the same widget values
    changes nothing. *)
Theorem apply_filters_idempotent (df : DataFrame) (age_range : Z * Z)
    (gender_filter : list string) (district_filter : option (list string))
    (transport_filter : list string) :
  apply_filters
    (apply_filters df age_range gender_filter district_filter transport_filter)
    age_range gender_filter district_filter transport_filter
  = apply_filters df age_range gender_filter district_filter transport_filter.
Proof.
  apply DataFrame_eq.
  - now rewrite !apply_filters_columns.
  - rewrite (apply_filters_rows (apply_filters _ _ _ _ _)).
    rewrite has_column_apply_filters, apply_filters_rows.
    apply filter_idem.
Qed.

(** X2. The filtered table has the columns of the loaded one, its rows are
    a subsequence of the loaded rows (same order, nothing new), and the
    count shown in the sidebar never exceeds the total. *)
Theorem apply_filters_subsequence (df : DataFrame) (age_range : Z * Z)
    (gender_filter : list string) (district_filter : option (list string))
    (transport_filter : list string) :
  let out := apply_filters df age_range gender_filter district_filter
                           transport_filter in
  columns out = columns df
  /\ rows out `sublist_of` rows df
  /\ (len out <= len df)%nat.
Proof.
  intros out. subst out. split; [apply apply_filters_columns|].
  assert (H : rows (apply_filters df age_range gender_filter district_filter
                      transport_filter) `sublist_of` rows df).
  { rewrite apply_filters_rows. apply filter_sublist. }
  split; [exact H|]. unfold len. now apply sublist_length.
Qed.

(** X3. Widening the selection never loses a row: with a wider age range
    and larger gender and transport selections (same district selection),
    the rows kept before are a subsequence of the rows kept after. *)
Theorem apply_filters_monotone (df : DataFrame) (lo hi lo' hi' : Z)
    (gender_filter gender_filter' : list string)
    (district_filter : option (list string))
    (transport_filter transport_filter' : list string) :
  lo' <= lo -> hi <= hi' ->
  gender_filter ⊆ gender_filter' ->
  transport_filter ⊆ transport_filter' ->
  rows (apply_filters df (lo, hi) gender_filter district_filter
          transport_filter)
  `sublist_of`
  rows (apply_filters df (lo', hi') gender_filter' district_filter
          transport_filter').
Proof.
  intros Hlo Hhi Hg Ht. rewrite !apply_filters_rows.
  apply filter_sublist_mono. intros r H.
  apply andb_true_iff in H as [Hm Hd]. apply andb_true_iff. split; [|exact Hd].
  apply base_mask_spec in Hm as (Ha & Hgr & Htr). apply base_mask_spec.
  simpl in *. repeat split; try lia; auto.
Qed.

Lemma apply_filters_monotone_witness :
  rows (apply_filters scenario_df (25, 55) ["Male"] None ["EV"])
  `sublist_of`
  rows (apply_filters scenario_df (20, 60) ["Male"; "Female"] None
          ["EV"; "Car"]).
Proof.
  apply apply_filters_monotone; try lia.
  - intros x Hx. apply list_elem_of_singleton in Hx as ->. now left.
  - intros x Hx. apply list_elem_of_singleton in Hx as ->. now left.
Defined.

Lemma fold_min_le (x : Z) (s : list Z) :
  fold_right Z.min x s <= x /\ Forall (fun y => fold_right Z.min x s <= y) s.
Proof.
  induction s as [|y s [IH1 IH2]]; simpl; [split; [lia | constructor]|].
  split; [lia|]. constructor; [lia|].
  eapply Forall_impl; [exact IH2 | simpl; intros; lia].
Qed.

Lemma fold_max_ge (x : Z) (s : list Z) :
  x <= fold_right Z.max x s /\ Forall (fun y => y <= fold_right Z.max x s) s.
Proof.
  induction s as [|y s [IH1 IH2]]; simpl; [split; [lia | constructor]|].
  split; [lia|]. constructor; [lia|].
  eapply Forall_impl; [exact IH2 | simpl; intros; lia].
Qed.

Lemma age_slider_bounds_spec (df : DataFrame) (lo hi : Z) :
  age_slider_bounds df = Some (lo, hi) ->
  forall r, r ∈ rows df -> lo <= Age r <= hi.
Proof.
  unfold age_slider_bounds, col. intros H r Hr.
  apply (list_elem_of_fmap_2 Age) in Hr.
  change (Age <$> rows df) with (map Age (rows df)) in Hr.
  destruct (map Age (rows df)) as [|x s]; [discriminate|].
  simpl in H. inversion H; subst lo hi.
  destruct (fold_min_le x s) as [Hm1 Hm2], (fold_max_ge x s) as [HM1 HM2].
  rewrite Forall_forall in Hm2, HM2.
  apply elem_of_cons in Hr as [->|Hr]; [lia|].
  split; [now apply Hm2 | now apply HM2].
Qed.

Lemma fold_min_attained (x : Z) (s : list Z) :
  fold_right Z.min x s ∈ x :: s.
Proof.
  induction s as [|y s IH]; simpl; [now left|].
  rewrite !elem_of_cons in *.
  destruct (Z.min_spec y (fold_right Z.min x s)) as [[_ ->]|[_ ->]]; tauto.
Qed.

Lemma fold_max_attained (x : Z) (s : list Z) :
  fold_right Z.max x s ∈ x :: s.
Proof.
  induction s as [|y s IH]; simpl; [now left|].
  rewrite !elem_of_cons in *.
  destruct (Z.max_spec y (fold_right Z.max x s)) as [[_ ->]|[_ ->]]; tauto.
Qed.

Lemma age_slider_bounds_attained (df : DataFrame) (lo hi : Z) :
  age_slider_bounds df = Some (lo, hi) ->
  (exists r, r ∈ rows df /\ Age r = lo)
  /\ (exists r, r ∈ rows df /\ Age r = hi).
Proof.
  unfold age_slider_bounds, col. intros H.
  destruct (map Age (rows df)) as [|x s] eqn:E; [discriminate|].
  simpl in H. inversion H; subst lo hi.
  pose proof (fold_min_attained x s) as Hm.
  pose proof (fold_max_attained x s) as HM.
  rewrite <- E in Hm, HM.
  change (map Age (rows df)) with (Age <$> rows df) in Hm, HM.
  apply list_elem_of_fmap in Hm as (r1 & H1 & Hr1).
  apply list_elem_of_fmap in HM as (r2 & H2 & Hr2).
  split; [exists r1 | exists r2]; split; congruence.
Qed.

(** On a table of the embedding (no missing cell): with the age slider at
    its two ends and every multiselect at its default, the filter keeps
    the whole table. *)
Lemma full_selection_of_table (df : DataFrame) (lo hi : Z) :
  age_slider_bounds df = Some (lo, hi) ->
  apply_filters df (lo, hi) (all_genders df) (all_districts df)
                (all_modes df) = df.
Proof.
  intros Hb. apply DataFrame_eq; [apply apply_filters_columns|].
  rewrite apply_filters_rows. apply filter_all. intros r Hr.
  pose proof (age_slider_bounds_spec df lo hi Hb r Hr) as Ha.
  apply andb_true_iff. split.
  - apply base_mask_spec. simpl. split; [exact Ha|].
    split; apply elem_of_unique; unfold col; now apply list_elem_of_fmap_2.
  - unfold all_districts, district_widget.
    destruct (has_column "District" df); [|reflexivity].
    apply orb_true_iff. right. apply bool_decide_eq_true, elem_of_unique.
    unfold col. now apply list_elem_of_fmap_2.
Qed.


(** ** Counts per category *)

Lemma NoDup_List_filter {A} (p : A -> bool) (l : list A) :
  NoDup l -> NoDup (List.filter p l).
Proof.
  induction 1 as [|x l Hx Hl IH]; simpl; [constructor|].
  destruct (p x); [|exact IH]. constructor; [|exact IH].
  rewrite elem_of_List_filter. tauto.
Qed.

Lemma NoDup_unique (s : list string) : NoDup (unique s).
Proof.
  induction s as [|x s IH]; simpl; constructor.
  - rewrite elem_of_List_filter, negb_true_iff, bool_decide_eq_false. tauto.
  - now apply NoDup_List_filter.
Qed.

Lemma count_of_cons (v x : string) (s : list string) :
  count_of v (x :: s)
  = ((if bool_decide (x = v) then 1 else 0) + count_of v s)%nat.
Proof. unfold count_of. simpl. now destruct (bool_decide (x = v)). Qed.

Lemma count_of_absent (v : string) (s : list string) :
  v ∉ s -> count_of v s = 0%nat.
Proof.
  unfold count_of. intros H. induction s as [|x s IH]; simpl; [reflexivity|].
  rewrite bool_decide_eq_false_2.
  - apply IH. intros Hv. apply H. now right.
  - intros ->. apply H. now left.
Qed.

Lemma count_of_present (v : string) (s : list string) :
  v ∈ s -> (0 < count_of v s)%nat.
Proof.
  intros H. induction s as [|x s IH]; [now apply not_elem_of_nil in H|].
  rewrite count_of_cons. apply elem_of_cons in H as [->|H].
  - rewrite bool_decide_eq_true_2 by reflexivity. lia.
  - specialize (IH H). lia.
Qed.

Lemma sum_list_with_ext_in {A} (f g : A -> nat) (l : list A) :
  (forall x, x ∈ l -> f x = g x) -> sum_list_with f l = sum_list_with g l.
Proof.
  induction l as [|x l IH]; intros H; simpl; [reflexivity|].
  rewrite (H x) by now left. f_equal. apply IH. intros y Hy. apply H. now right.
Qed.

Lemma sum_list_with_split (f : string -> nat) (x : string) (l : list string) :
  NoDup l ->
  sum_list_with f l
  = ((if bool_decide (x ∈ l) then f x else 0)
     + sum_list_with f
         (List.filter (fun y => negb (bool_decide (y = x))) l))%nat.
Proof.
  induction 1 as [|y l Hy Hl IH]; simpl; [reflexivity|].
  destruct (decide (y = x)) as [->|Hne].
  - rewrite bool_decide_eq_true_2 by now left.
    rewrite (bool_decide_eq_true_2 (x = x)) by reflexivity. simpl.
    rewrite IH, bool_decide_eq_false_2 by exact Hy. lia.
  - rewrite (bool_decide_eq_false_2 (y = x)) by exact Hne. simpl.
    rewrite IH. destruct (bool_decide (x ∈ l)) eqn:E.
    + apply bool_decide_eq_true in E.
      rewrite bool_decide_eq_true_2 by now right. lia.
    + apply bool_decide_eq_false in E.
      rewrite bool_decide_eq_false_2; [lia|].
      intros H. apply elem_of_cons in H as [H|H]; congruence.
Qed.

Lemma sum_counts_unique (s : list string) :
  sum_list_with (fun v => count_of v s) (unique s) = length s.
Proof.
  induction s as [|x s IH]; [reflexivity|]. simpl.
  rewrite count_of_cons, bool_decide_eq_true_2 by reflexivity.
  rewrite (sum_list_with_ext_in _ (fun v => count_of v s)).
  - rewrite (sum_list_with_split _ x (unique s) (NoDup_unique s)) in IH.
    destruct (bool_decide (x ∈ unique s)) eqn:E; [lia|].
    apply bool_decide_eq_false in E. rewrite elem_of_unique in E.
    rewrite (count_of_absent x s E). lia.
  - intros v Hv. apply elem_of_List_filter in Hv as [_ Hv].
    apply negb_true_iff, bool_decide_eq_false in Hv.
    rewrite count_of_cons, bool_decide_eq_false_2; [reflexivity|congruence].
Qed.

Lemma value_counts_perm (s : list string) :
  value_counts s ≡ₚ map (fun v => (v, count_of v s)) (unique s).
Proof. unfold value_counts. apply merge_sort_Permutation. Qed.

Lemma value_counts_total (s : list string) :
  sum_list_with snd (value_counts s) = length s.
Proof.
  rewrite value_counts_perm, <- (sum_counts_unique s).
  induction (unique s) as [|v l IH]; simpl; [reflexivity|]. now rewrite IH.
Qed.

Lemma value_counts_entry (s : list string) (v : string) (n : nat) :
  (v, n) ∈ value_counts s <-> v ∈ s /\ n = count_of v s.
Proof.
  rewrite value_counts_perm. split.
  - intros H. apply list_elem_of_fmap in H as (v' & Heq & Hv').
    inversion Heq; subst. split; [now apply elem_of_unique | reflexivity].
  - intros [Hv ->].
    apply (list_elem_of_fmap_2 (fun v => (v, count_of v s))).
    now apply elem_of_unique.
Qed.

Lemma value_counts_keys (s : list string) : NoDup (value_counts s).*1.
Proof.
  rewrite value_counts_perm.
  assert (H : forall l, (map (fun v => (v, count_of v s)) l).*1 = l).
  { induction l as [|v l IH]; [reflexivity|]. cbn. now f_equal. }
  rewrite H. apply NoDup_unique.
Qed.

#[global] Instance count_ge_total : Total count_ge.
Proof. intros a b. unfold count_ge. lia. Qed.

#[global] Instance count_ge_trans : Transitive count_ge.
Proof. intros a b c. unfold count_ge. lia. Qed.

(** On a table of the embedding (no missing cell) the counts of each
    [value_counts] table add up to the number of rows, and a gender is
    listed exactly when a row carries it. *)
Lemma category_counts_of_table (filtered_df : DataFrame) :
  sum_list_with snd (gender_counts filtered_df) = len filtered_df
  /\ sum_list_with snd (transport_counts filtered_df) = len filtered_df
  /\ (forall t, district_counts filtered_df = Some t ->
                sum_list_with snd t = len filtered_df)
  /\ (forall v n,
        (v, n) ∈ gender_counts filtered_df <->
        (exists r, r ∈ rows filtered_df /\ Gender r = v)
        /\ n = count_of v (col Gender filtered_df) /\ (0 < n)%nat).
Proof.
  unfold gender_counts, transport_counts, district_counts, len, col.
  split; [now rewrite value_counts_total, List.length_map|].
  split; [now rewrite value_counts_total, List.length_map|].
  split.
  { intros t. destruct (has_column "District" filtered_df); [|discriminate].
    intros [= <-]. now rewrite value_counts_total, List.length_map. }
  intros v n. rewrite value_counts_entry. split.
  - intros [Hv ->]. split; [|split; [reflexivity | now apply count_of_present]].
    apply list_elem_of_fmap in Hv as (r & -> & Hr). eauto.
  - intros [(r & Hr & <-) [-> _]]. split; [|reflexivity].
    now apply (list_elem_of_fmap_2 Gender).
Qed.

(** X6. Every [value_counts] table lists each category once and in order
    of decreasing count. *)
Theorem category_counts_sorted (filtered_df : DataFrame) :
  NoDup (gender_counts filtered_df).*1
  /\ StronglySorted count_ge (gender_counts filtered_df)
  /\ NoDup (transport_counts filtered_df).*1
  /\ StronglySorted count_ge (transport_counts filtered_df).
Proof.
  unfold gender_counts, transport_counts.
  repeat split; try apply value_counts_keys;
    unfold value_counts; apply StronglySorted_merge_sort; apply _.
Qed.

(** ** Grouped means as tables *)

#[global] Instance str_le_total : Total str_le.
Proof. intros a b. apply String.leb_total. Qed.

#[global] Instance value_le_total : Total value_le.
Proof.
  intros [k1 [x|]] [k2 [y|]]; unfold value_le, value_leb; simpl; auto.
  rewrite !Qle_bool_iff. destruct (Qlt_le_dec x y) as [H|H]; [left|right].
  - now apply Qlt_le_weak.
  - exact H.
Qed.

#[global] Instance value_le_trans : Transitive value_le.
Proof.
  intros [k1 [x|]] [k2 [y|]] [k3 [z|]]; unfold value_le, value_leb; simpl;
    try congruence.
  rewrite !Qle_bool_iff. apply Qle_trans.
Qed.

Lemma groupby_mean_keys (key : Row -> option string) (val : Row -> Q)
    (l : list Row) :
  (groupby_mean key val l).*1 = group_keys (map key l).
Proof.
  unfold groupby_mean. induction (group_keys (map key l)) as [|k ks IH];
    [reflexivity|]. cbn. now f_equal.
Qed.

Lemma NoDup_group_keys (keys : list (option string)) :
  NoDup (group_keys keys).
Proof.
  unfold group_keys. rewrite merge_sort_Permutation. apply NoDup_unique.
Qed.

Lemma groupby_mean_categories (key : Row -> option string) (val : Row -> Q)
    (l : list Row) :
  NoDup (groupby_mean key val l).*1
  /\ Sorted str_le (groupby_mean key val l).*1
  /\ (forall k, k ∈ (groupby_mean key val l).*1 <->
                exists r, r ∈ l /\ key r = Some k).
Proof.
  rewrite groupby_mean_keys. split; [apply NoDup_group_keys|].
  split; [unfold group_keys; apply Sorted_merge_sort, _|].
  intros k. apply elem_of_group_keys.
Qed.

(** X9. The steps-by-gender table, and the carbon-by-district and
    digital-usage-by-district tables when they are computed, have one row
    per category carried by a shown record, each category once, in
    alphabetical order of the category. *)
Theorem grouped_mean_charts_categories (filtered_df : DataFrame) :
  (NoDup (gender_steps filtered_df).*1
   /\ Sorted str_le (gender_steps filtered_df).*1
   /\ (forall k, k ∈ (gender_steps filtered_df).*1 <->
                 exists r, r ∈ rows filtered_df /\ Gender r = k))
  /\ (forall t, district_carbon filtered_df = Some t ->
        NoDup t.*1 /\ Sorted str_le t.*1
        /\ (forall k, k ∈ t.*1 <->
                      exists r, r ∈ rows filtered_df /\ District r = k))
  /\ (forall t, digital_by_district filtered_df = Some t ->
        NoDup t.*1 /\ Sorted str_le t.*1
        /\ (forall k, k ∈ t.*1 <->
                      exists r, r ∈ rows filtered_df /\ District r = k)).
Proof.
  assert (Hsome : forall (f : Row -> string) k,
    (exists r, r ∈ rows filtered_df /\ Some (f r) = Some k)
    <-> (exists r, r ∈ rows filtered_df /\ f r = k)).
  { intros f k. split; intros (r & Hr & Hk); exists r; split;
      try exact Hr; congruence. }
  split; [|split].
  - unfold gender_steps.
    destruct (groupby_mean_categories (fun r => Some (Gender r))
                (fun r => inject_Z (Steps_Walked r)) (rows filtered_df))
      as (Hn & Hs & Hk).
    split; [exact Hn|]. split; [exact Hs|].
    intros k. rewrite Hk. apply Hsome.
  - intros t. unfold district_carbon.
    destruct (has_column "District" filtered_df); [|discriminate].
    intros [= <-].
    destruct (groupby_mean_categories (fun r => Some (District r))
                Carbon_Footprint_kgCO2 (rows filtered_df)) as (Hn & Hs & Hk).
    split; [exact Hn|]. split; [exact Hs|].
    intros k. rewrite Hk. apply Hsome.
  - intros t. unfold digital_by_district.
    destruct (has_column "Recycling_Rate" filtered_df
              && (has_column "District" filtered_df
                  && has_column "Digital_Service_Usage" filtered_df));
      [|discriminate].
    intros [= <-].
    destruct (groupby_mean_categories (fun r => Some (District r))
                (fun r => inject_Z (Digital_Service_Usage r))
                (rows filtered_df)) as (Hn & Hs & Hk).
    split; [exact Hn|]. split; [exact Hs|].
    intros k. rewrite Hk. apply Hsome.
Qed.

(** X10. The carbon-by-mode table has one bar per transport mode used by a
    shown record, each mode once, and the bars are in order of increasing
    mean. *)
Theorem transport_carbon_sorted (filtered_df : DataFrame) :
  StronglySorted value_le (transport_carbon filtered_df)
  /\ NoDup (transport_carbon filtered_df).*1
  /\ (forall k, k ∈ (transport_carbon filtered_df).*1 <->
                exists r, r ∈ rows filtered_df /\ Mode_of_Transport r = k).
Proof.
  unfold transport_carbon, sort_values.
  split; [apply StronglySorted_merge_sort; apply _|].
  split.
  { rewrite merge_sort_Permutation, groupby_mean_keys.
    apply NoDup_group_keys. }
  intros k. rewrite merge_sort_Permutation, groupby_mean_keys.
  rewrite elem_of_group_keys. split.
  - intros (r & Hr & Hk). exists r. split; [exact Hr | congruence].
  - intros (r & Hr & Hk). exists r. split; [exact Hr | congruence].
Qed.

(** ** Age groups of whole tables *)

Lemma cut_in_bins (a : Z) :
  in_bins a = true ->
  exists c, c ∈ age_labels /\ cut a age_bins age_labels = Some c.
Proof.
  rewrite cut_age_bins. unfold in_bins, age_labels. intros H.
  apply andb_true_iff in H as [H1 H2]. apply Z.leb_le in H1.
  apply Z.ltb_lt in H2.
  repeat match goal with
  | |- context [a <? ?k] => destruct (Z.ltb_spec a k); try lia
  end; eexists; (split; [|reflexivity]); apply list_elem_of_In; simpl; tauto.
Qed.

Lemma cut_out_of_bins (a : Z) :
  in_bins a = false -> cut a age_bins age_labels = None.
Proof.
  rewrite cut_age_bins. unfold in_bins. intros H.
  apply andb_false_iff in H as [H|H];
    [apply Z.leb_gt in H | apply Z.ltb_ge in H];
  repeat match goal with
  | |- context [a <? ?k] => destruct (Z.ltb_spec a k); try lia
  end; reflexivity.
Qed.

Lemma label_hits (a : Z) :
  sum_list_with
    (fun c => if bool_decide (cut a age_bins age_labels = Some c)
              then 1%nat else 0%nat) age_labels
  = if in_bins a then 1%nat else 0%nat.
Proof.
  rewrite cut_age_bins. unfold in_bins, age_labels.
  destruct (Z.leb_spec 18 a);
  repeat match goal with
  | |- context [a <? ?k] => destruct (Z.ltb_spec a k); try lia
  end; reflexivity.
Qed.

Lemma value_counts_sort_index_total (ages : list Z) :
  sum_list_with snd
    (value_counts_sort_index age_labels
       (map (fun a => cut a age_bins age_labels) ages))
  = length (List.filter in_bins ages).
Proof.
  assert (Hsum : forall (f : string -> nat) (cats : list string),
            sum_list_with snd (map (fun c => (c, f c)) cats)
            = sum_list_with f cats).
  { intros f cats. induction cats as [|c cats IH]; simpl; [reflexivity|].
    now rewrite IH. }
  unfold value_counts_sort_index. rewrite Hsum.
  induction ages as [|a ages IH]; [reflexivity|].
  cbn [map List.filter].
  assert (Hstep : forall cats,
    sum_list_with
      (fun c => length (List.filter (fun v => bool_decide (v = Some c))
                  (cut a age_bins age_labels
                   :: map (fun a => cut a age_bins age_labels) ages))) cats
    = (sum_list_with
         (fun c => if bool_decide (cut a age_bins age_labels = Some c)
                   then 1%nat else 0%nat) cats
       + sum_list_with
           (fun c => length (List.filter (fun v => bool_decide (v = Some c))
                       (map (fun a => cut a age_bins age_labels) ages)))
           cats)%nat).
  { induction cats as [|c cats IHc]; [reflexivity|].
    cbn [sum_list_with]. rewrite IHc. cbn [List.filter].
    destruct (bool_decide (cut a age_bins age_labels = Some c)); simpl; lia. }
  rewrite Hstep, IH, label_hits. destruct (in_bins a); simpl; lia.
Qed.

Lemma ev_age_distribution_sum (df : DataFrame) :
  sum_list_with snd (ev_age_distribution_of df)
  = length (List.filter
              (fun r => bool_decide (Mode_of_Transport r = "EV")
                        && in_bins (Age r)) (rows df)).
Proof.
  unfold ev_age_distribution_of. rewrite ev_age_df_groups.
  rewrite <- (List.map_map Age (fun a => cut a age_bins age_labels)).
  rewrite value_counts_sort_index_total, filter_map_comm, List.length_map.
  now rewrite filter_filter_andb.
Qed.

(** X11. The EV chart always has the seven age labels, in label order;
    its counts add up to the number of EV users aged 18 to 99 in the
    whole table, so an EV user aged 100 or more (or under 18) is in no
    bar. *)
Theorem ev_age_distribution_total (df : DataFrame) :
  let is_ev := fun r => bool_decide (Mode_of_Transport r = "EV") in
  (ev_age_distribution_of df).*1 = age_labels
  /\ sum_list_with snd (ev_age_distribution_of df)
     = length (List.filter (fun r => is_ev r && in_bins (Age r)) (rows df))
  /\ (sum_list_with snd (ev_age_distribution_of df)
      <= length (List.filter is_ev (rows df)))%nat.
Proof.
  intros is_ev. split; [reflexivity|].
  split; [apply ev_age_distribution_sum|].
  rewrite ev_age_distribution_sum. apply sublist_length, filter_sublist_mono.
  intros r Hr. now apply andb_true_iff in Hr as [Hr _].
Qed.

(** The sample with a citizen aged 100: two EV users, one bar entry. *)
Example ev_chart_drops_centenarian :
  sum_list_with snd (ev_age_distribution_of centenarian_df) = 1%nat
  /\ length (List.filter (fun r => bool_decide (Mode_of_Transport r = "EV"))
               (rows centenarian_df)) = 2%nat.
Proof. split; reflexivity. Qed.

Lemma has_column_bin_ages (name : string) (df : DataFrame) :
  name <> "Age_Group" ->
  has_column name (bin_ages df) = has_column name df.
Proof.
  intros Hne. unfold bin_ages, setitem_Age_Group.
  destruct (has_column "Age_Group" df); unfold has_column; cbn [columns];
    [reflexivity|].
  apply bool_decide_ext. rewrite elem_of_app, list_elem_of_singleton. tauto.
Qed.

(** X12. Binning keeps the number of rows and every other cell, applied
    twice it changes nothing more, and it commutes with the sidebar
    filter: binning the filtered table (as the recycling chart does) gives
    the same table as filtering the binned one. *)
Theorem bin_ages_commutes (df : DataFrame) (age_range : Z * Z)
    (gender_filter : list string) (district_filter : option (list string))
    (transport_filter : list string) :
  len (bin_ages df) = len df
  /\ bin_ages (bin_ages df) = bin_ages df
  /\ bin_ages (apply_filters df age_range gender_filter district_filter
                             transport_filter)
     = apply_filters (bin_ages df) age_range gender_filter district_filter
                     transport_filter.
Proof.
  split; [|split].
  - unfold len. now rewrite bin_ages_rows, List.length_map.
  - apply DataFrame_eq.
    + unfold bin_ages at 1, setitem_Age_Group; cbn [columns].
      fold (bin_ages df).
      assert (H : has_column "Age_Group" (bin_ages df) = true).
      { unfold bin_ages, setitem_Age_Group.
        destruct (has_column "Age_Group" df) eqn:E;
          unfold has_column in *; cbn [columns]; [exact E|].
        apply bool_decide_eq_true, elem_of_app. right. now left. }
      now rewrite H.
    + rewrite !bin_ages_rows, List.map_map. apply List.map_ext.
      intros r. reflexivity.
  - apply DataFrame_eq.
    + rewrite apply_filters_columns.
      unfold bin_ages, setitem_Age_Group; cbn [columns].
      now rewrite has_column_apply_filters, apply_filters_columns.
    + rewrite bin_ages_rows, !apply_filters_rows, bin_ages_rows.
      rewrite has_column_bin_ages by discriminate.
      rewrite filter_map_comm. reflexivity.
Qed.

(** ** Generated tables *)

Definition world_unreadable : World (RS := lcg_RandomState) :=
  @mkWorld lcg_RandomState (fun _ => Raised (OtherError "ParserError")) 7 [].

Section GeneratedTables.
Context `{RS : RandomState}.

(** The table of [generate_mock_data] is assembled from arrays of the
    requested length whose entries obey the draws' contracts. *)
Lemma generate_mock_data_columns (n : nat) (g : rng) :
  exists age gender district mode carbon steps sleep social public
         recycling digital,
    (generate_mock_data n g).1
    = from_columns n age gender district mode carbon steps sleep social
        public recycling digital
    /\ (length age = n /\ Forall (fun x => 18 <= x < 80) age)
    /\ (length gender = n
        /\ Forall (fun x => x ∈ ["Male"; "Female"; "Non-binary"]) gender)
    /\ (length district = n
        /\ Forall (fun x => x ∈ ["Downtown"; "Uptown"; "Westside";
                                 "Eastside"; "Suburbs"; "Industrial"])
                  district)
    /\ (length mode = n
        /\ Forall (fun x => x ∈ ["Bus"; "Car"; "Bicycle"; "Walk"; "EV";
                                 "Train"; "Motorcycle"]) mode)
    /\ (length public = n
        /\ Forall (fun x => x ∈ ["Daily"; "Weekly"; "Monthly"; "Rarely";
                                 "Never"]) public).
Proof.
  unfold generate_mock_data.
  pose proof (randint_length 18 80 n (seed 42 g)) as Lage.
  pose proof (randint_range 18 80 n (seed 42 g) ltac:(lia)) as Rage.
  destruct (randint 18 80 n (seed 42 g)) as [age g1].
  pose proof (choice_length ["Male"; "Female"; "Non-binary"] n g1) as Lgen.
  pose proof (choice_elem ["Male"; "Female"; "Non-binary"] n g1
                ltac:(discriminate)) as Rgen.
  destruct (choice _ n g1) as [gender g2].
  pose proof (choice_length ["Downtown"; "Uptown"; "Westside"; "Eastside";
                             "Suburbs"; "Industrial"] n g2) as Ldis.
  pose proof (choice_elem ["Downtown"; "Uptown"; "Westside"; "Eastside";
                           "Suburbs"; "Industrial"] n g2
                ltac:(discriminate)) as Rdis.
  destruct (choice _ n g2) as [district g3].
  pose proof (choice_length ["Bus"; "Car"; "Bicycle"; "Walk"; "EV"; "Train";
                             "Motorcycle"] n g3) as Lmod.
  pose proof (choice_elem ["Bus"; "Car"; "Bicycle"; "Walk"; "EV"; "Train";
                           "Motorcycle"] n g3 ltac:(discriminate)) as Rmod.
  destruct (choice _ n g3) as [mode g4].
  destruct (normal 10 5 n g4) as [carbon g5].
  destruct (randint 1000 15000 n g5) as [steps g6].
  destruct (normal 7 (3 # 2) n g6) as [sleep g7].
  destruct (exponential 2 n g7) as [social g8].
  pose proof (choice_length ["Daily"; "Weekly"; "Monthly"; "Rarely"; "Never"]
                n g8) as Lpub.
  pose proof (choice_elem ["Daily"; "Weekly"; "Monthly"; "Rarely"; "Never"]
                n g8 ltac:(discriminate)) as Rpub.
  destruct (choice _ n g8) as [public g9].
  destruct (normal 65 20 n g9) as [recycling g10].
  destruct (randint 1 10 n g10) as [digital g11].
  cbn [fst snd] in *. do 11 eexists. split; [reflexivity|].
  repeat split; assumption.
Qed.

(** X13. Every generated row takes its gender, district, transport mode
    and public-transport usage from the lists written in the generator,
    and the table has exactly the eleven columns of the dictionary. *)
Theorem generate_mock_data_categories (n : nat) (g : rng) :
  columns (generate_mock_data n g).1 = mock_columns
  /\ Forall (fun r =>
               Gender r ∈ ["Male"; "Female"; "Non-binary"]
               /\ District r ∈ ["Downtown"; "Uptown"; "Westside"; "Eastside";
                                "Suburbs"; "Industrial"]
               /\ Mode_of_Transport r ∈ ["Bus"; "Car"; "Bicycle"; "Walk";
                                         "EV"; "Train"; "Motorcycle"]
               /\ Public_Transport_Usage r ∈ ["Daily"; "Weekly"; "Monthly";
                                              "Rarely"; "Never"])
            (rows (generate_mock_data n g).1).
Proof.
  destruct (generate_mock_data_columns n g)
    as (age & gender & district & mode & carbon & steps & sleep & social
        & public & recycling & digital & -> & _ & [Lg Rg] & [Ld Rd]
        & [Lm Rm] & [Lp Rp]).
  split; [reflexivity|]. apply Forall_forall. intros r Hr.
  unfold from_columns in Hr. cbn [rows] in Hr.
  apply list_elem_of_fmap in Hr as (i & -> & Hi). apply elem_of_seq in Hi.
  cbn [Gender District Mode_of_Transport Public_Transport_Usage].
  split; [|split; [|split]].
  - apply (nth_Forall (fun x => x ∈ ["Male"; "Female"; "Non-binary"]) gender);
      [exact Rg | lia].
  - apply (nth_Forall (fun x => x ∈ ["Downtown"; "Uptown"; "Westside";
                                     "Eastside"; "Suburbs"; "Industrial"])
                      district); [exact Rd | lia].
  - apply (nth_Forall (fun x => x ∈ ["Bus"; "Car"; "Bicycle"; "Walk"; "EV";
                                     "Train"; "Motorcycle"]) mode);
      [exact Rm | lia].
  - apply (nth_Forall (fun x => x ∈ ["Daily"; "Weekly"; "Monthly"; "Rarely";
                                     "Never"]) public); [exact Rp | lia].
Qed.

(** X14. On a generated table nobody falls outside the age bins: every
    row gets one of the seven labels, the EV chart counts every generated
    EV user, and the table has the columns that switch the district and
    recycling charts on. *)
Theorem generate_mock_data_binned (n : nat) (g : rng) :
  let df := (generate_mock_data n g).1 in
  Forall (fun r => exists c, c ∈ age_labels /\ Age_Group r = Some c)
         (rows (bin_ages df))
  /\ sum_list_with snd (ev_age_distribution_of df)
     = length (List.filter
                 (fun r => bool_decide (Mode_of_Transport r = "EV")) (rows df))
  /\ has_column "District" df = true
  /\ has_column "Recycling_Rate" df = true
  /\ has_column "Age_Group" df = false.
Proof.
  intros df.
  assert (Hage : forall r, r ∈ rows df -> in_bins (Age r) = true).
  { subst df. destruct (generate_mock_data_columns n g)
      as (age & gender & district & mode & carbon & steps & sleep & social
          & public & recycling & digital & -> & [La Ra] & _).
    intros r Hr. unfold from_columns in Hr. cbn [rows] in Hr.
    apply list_elem_of_fmap in Hr as (i & -> & Hi). apply elem_of_seq in Hi.
    cbn [Age]. unfold in_bins.
    assert (H : 18 <= nth i age 0 < 80)
      by (apply (nth_Forall (fun x => 18 <= x < 80) age); [exact Ra | lia]).
    apply andb_true_iff. split; [apply Z.leb_le | apply Z.ltb_lt]; lia. }
  assert (Hcols : columns df = mock_columns).
  { subst df. destruct (generate_mock_data_columns n g)
      as (age & gender & district & mode & carbon & steps & sleep & social
          & public & recycling & digital & -> & _). reflexivity. }
  split; [|split].
  - rewrite bin_ages_rows. apply Forall_forall. intros r Hr.
    apply list_elem_of_fmap in Hr as (r0 & -> & Hr0). cbn [Age_Group set_Age_Group].
    apply cut_in_bins, Hage, Hr0.
  - rewrite ev_age_distribution_sum. f_equal. apply List.filter_ext_in.
    intros r Hr. apply list_elem_of_In in Hr.
    now rewrite (Hage r Hr), andb_true_r.
  - unfold has_column. rewrite Hcols. repeat split.
Qed.

Lemma generated_ages (n : nat) (g : rng) (r : Row) :
  r ∈ rows (generate_mock_data n g).1 -> 18 <= Age r < 80.
Proof.
  destruct (generate_mock_data_columns n g)
    as (age & gender & district & mode & carbon & steps & sleep & social
        & public & recycling & digital & -> & [La Ra] & _).
  intros Hr. unfold from_columns in Hr. cbn [rows] in Hr.
  apply list_elem_of_fmap in Hr as (i & -> & Hi). apply elem_of_seq in Hi.
  cbn [Age]. apply (nth_Forall (fun x => 18 <= x < 80) age); [exact Ra | lia].
Qed.

Lemma generated_columns (n : nat) (g : rng) :
  columns (generate_mock_data n g).1 = mock_columns.
Proof.
  destruct (generate_mock_data_columns n g)
    as (age & gender & district & mode & carbon & steps & sleep & social
        & public & recycling & digital & -> & _). reflexivity.
Qed.

(** X4. On a generated table the two ends of the age slider lie between
    18 and 79, and with the slider moved to its two ends and every
    multiselect left at its default (all values of its column) the
    filter returns the whole table. *)
Theorem generated_full_selection_keeps_all (n : nat) (g : rng) (lo hi : Z) :
  let df := (generate_mock_data n g).1 in
  age_slider_bounds df = Some (lo, hi) ->
  18 <= lo /\ lo <= hi /\ hi < 80
  /\ apply_filters df (lo, hi) (all_genders df) (all_districts df)
                   (all_modes df) = df.
Proof.
  intros df Hb. split; [|split; [|split]].
  4: now apply full_selection_of_table.
  all: pose proof (generated_ages n g) as Hage; fold df in Hage;
    pose proof (age_slider_bounds_spec df lo hi Hb) as Hin;
    pose proof (age_slider_bounds_attained df lo hi Hb)
      as ((r1 & Hr1 & H1) & (r2 & Hr2 & H2));
    specialize (Hage r1 Hr1) as Ha1; specialize (Hage r2 Hr2) as Ha2;
    specialize (Hin r1 Hr1); lia.
Qed.

(** X5. On a generated table, whatever the widgets select, the
    [value_counts] tables behind the gender, transport and district
    charts each add up to the number of records shown, and a gender is
    listed exactly when a shown record carries it, with the number of
    such records (never 0). *)
Theorem generated_category_counts_total (n : nat) (g : rng)
    (age_range : Z * Z) (gender_filter : list string)
    (district_filter : option (list string))
    (transport_filter : list string) :
  let filtered_df :=
    apply_filters (generate_mock_data n g).1 age_range gender_filter
                  district_filter transport_filter in
  sum_list_with snd (gender_counts filtered_df) = len filtered_df
  /\ sum_list_with snd (transport_counts filtered_df) = len filtered_df
  /\ (exists t, district_counts filtered_df = Some t
                /\ sum_list_with snd t = len filtered_df)
  /\ (forall v c,
        (v, c) ∈ gender_counts filtered_df <->
        (exists r, r ∈ rows filtered_df /\ Gender r = v)
        /\ c = count_of v (col Gender filtered_df) /\ (0 < c)%nat).
Proof.
  intros filtered_df.
  destruct (category_counts_of_table filtered_df) as (Hg & Ht & Hd & He).
  split; [exact Hg|]. split; [exact Ht|]. split; [|exact He].
  assert (Hcol : has_column "District" filtered_df = true).
  { subst filtered_df. rewrite has_column_apply_filters.
    unfold has_column. now rewrite generated_columns. }
  unfold district_counts in *. rewrite Hcol in *.
  eexists. split; [reflexivity|]. now apply Hd.
Qed.

(** X15. [load_data] never raises [FileNotFoundError]: when it raises,
    the error is the one [pd.read_csv] raised, it is of another kind, and
    nothing was shown or drawn. *)
Theorem load_data_raises (w : World) (e : exception) :
  (load_data w).1 = Raised e ->
  e <> FileNotFoundError
  /\ read_csv w csv_path = Raised e
  /\ (load_data w).2 = w.
Proof.
  unfold load_data. destruct (read_csv w csv_path) as [df|[|what]].
  - discriminate.
  - destruct (generate_mock_data 300 _). discriminate.
  - cbn [fst snd]. intros [= <-]. repeat split. discriminate.
Qed.

(** X16. The current [load_data] behaves as the earlier revision, which
    only read the file, unless the file is missing; there the earlier
    revision raised and the current one returns a table. *)
Theorem load_data_extends_checkpoint (w : World) :
  (read_csv w csv_path <> Raised FileNotFoundError ->
   load_data w = checkpoint_load_data w)
  /\ (read_csv w csv_path = Raised FileNotFoundError ->
      (checkpoint_load_data w).1 = Raised FileNotFoundError
      /\ exists df, (load_data w).1 = Returned df /\ len df = 300%nat).
Proof.
  unfold load_data, checkpoint_load_data. split.
  - intros H. destruct (read_csv w csv_path) as [df|[|what]];
      [reflexivity | congruence | reflexivity].
  - intros H. rewrite H. split; [reflexivity|].
    cbn [np_random].
    destruct (generate_mock_data_columns 300 (np_random w))
      as (age & gender & district & mode & carbon & steps & sleep & social
          & public & recycling & digital & Heq & _).
    destruct (generate_mock_data 300 (np_random w)) as [df g'].
    cbn [fst] in *. exists df. split; [reflexivity|]. subst df.
    unfold len, from_columns. cbn [rows].
    now rewrite List.length_map, List.length_seq.
Qed.

End GeneratedTables.

Lemma load_data_raises_witness :
  OtherError "ParserError" <> FileNotFoundError
  /\ (load_data world_unreadable).2 = world_unreadable.
Proof.
  destruct (load_data_raises world_unreadable (OtherError "ParserError")
              eq_refl) as (H1 & _ & H2).
  split; [exact H1 | exact H2].
Defined.

Lemma load_data_extends_checkpoint_witness :
  load_data world_with_file = checkpoint_load_data world_with_file
  /\ exists df,
       (load_data world_without_file).1 = Returned df /\ len df = 300%nat.
Proof.
  split.
  - apply (proj1 (load_data_extends_checkpoint world_with_file)).
    discriminate.
  - apply (proj2 (load_data_extends_checkpoint world_without_file)).
    reflexivity.
Defined.

(** ** More on objects *)

(** X17. The recycling chart bins on a copy as well (lines 481-488):
    [df_age_group] is rebound to a new object that holds the filtered
    table, binned unless it already has an [Age_Group] column, while
    [filtered_df] keeps its object and every existing object its table. *)
Theorem recycling_binning_on_copy (st : PyState) (l : loc) (d : DataFrame) :
  globals st !! "filtered_df" = Some l ->
  heap st !! l = Some d ->
  exists st' lg,
    stmt_recycling_age_group st = Some (tt, st')
    /\ unchanged st st'
    /\ globals st' !! "filtered_df" = Some l
    /\ globals st' !! "df_age_group" = Some lg
    /\ heap st !! lg = None
    /\ heap st' !! lg
       = Some (if has_column "Age_Group" d then d else bin_ages d).
Proof.
  intros Hdf Hd. unfold stmt_recycling_age_group.
  unfold mbind, Py_bind, name, deref. rewrite Hdf, Hd.
  destruct (new_object_fresh d st) as (l1 & -> & Hl1).
  unfold assign, update_object. cbn [heap globals].
  rewrite lookup_insert_eq. cbn [heap]. rewrite lookup_insert_eq.
  destruct (has_column "Age_Group" d); cbn [negb heap globals].
  - eexists _, l1. split; [reflexivity|]. cbn [heap globals].
    repeat split.
    + now apply insert_fresh_unchanged.
    + rewrite lookup_insert_ne by discriminate. exact Hdf.
    + apply lookup_insert_eq.
    + exact Hl1.
    + apply lookup_insert_eq.
  - rewrite lookup_insert_eq. eexists _, l1. split; [reflexivity|].
    cbn [heap globals]. repeat split.
    + intros l0 d0 H0. cbn [heap].
      rewrite !lookup_insert_ne by congruence. exact H0.
    + rewrite lookup_insert_ne by discriminate. exact Hdf.
    + apply lookup_insert_eq.
    + exact Hl1.
    + rewrite insert_insert_eq. apply lookup_insert_eq.
Qed.

Definition session_filtered : PyState :=
  {| heap := {[ 1%positive := scenario_df ]};
     globals := {[ "filtered_df" := 1%positive ]} |}.

Lemma recycling_binning_on_copy_witness :
  exists st',
    stmt_recycling_age_group session_filtered = Some (tt, st')
    /\ globals st' !! "filtered_df" = Some 1%positive.
Proof.
  destruct (recycling_binning_on_copy session_filtered 1%positive scenario_df)
    as (st' & lg & Hrun & _ & Hf & _).
  - reflexivity.
  - reflexivity.
  - exists st'. split; [exact Hrun | exact Hf].
Defined.

(** X18. The earlier revision binned in place: its statement
    [df["Age_Group"] = pd.cut(...)] creates no object and rebinds no
    name, and afterwards the object of [df] itself holds the binned
    table, which has an [Age_Group] column whatever the loaded table
    had. *)
Theorem checkpoint_binning_in_place (st : PyState) (l : loc) (d : DataFrame) :
  globals st !! "df" = Some l ->
  heap st !! l = Some d ->
  exists st',
    stmt_age_group_checkpoint st = Some (tt, st')
    /\ globals st' = globals st
    /\ dom (heap st') = dom (heap st)
    /\ heap st' !! l = Some (bin_ages d)
    /\ has_column "Age_Group" (bin_ages d) = true
    /\ (forall l0, l0 <> l -> heap st' !! l0 = heap st !! l0).
Proof.
  intros Hdf Hd. unfold stmt_age_group_checkpoint.
  unfold mbind, Py_bind, name, deref, update_object. rewrite Hdf, Hd.
  cbn [heap]. rewrite Hd. eexists. split; [reflexivity|].
  cbn [heap globals]. split; [reflexivity|]. split.
  { rewrite dom_insert_L.
    apply subseteq_union_1_L, singleton_subseteq_l, (elem_of_dom_2 _ _ _ Hd). }
  split; [apply lookup_insert_eq|]. split.
  - unfold bin_ages, setitem_Age_Group.
    destruct (has_column "Age_Group" d) eqn:E;
      unfold has_column in *; cbn [columns]; [exact E|].
    apply bool_decide_eq_true, elem_of_app. right. now left.
  - intros l0 Hne. now rewrite lookup_insert_ne.
Qed.

Lemma checkpoint_binning_in_place_witness :
  exists st',
    stmt_age_group_checkpoint session = Some (tt, st')
    /\ heap st' !! 1%positive = Some (bin_ages scenario_df).
Proof.
  destruct (checkpoint_binning_in_place session 1%positive scenario_df)
    as (st' & Hrun & _ & _ & Hd & _).
  - reflexivity.
  - reflexivity.
  - exists st'. split; [exact Hrun | exact Hd].
Defined.

(** ** The earlier filter *)

(** X19. With every transport mode of the table selected, and the
    district selection empty, absent or holding every district, the
    current filter keeps exactly what the earlier age-and-gender filter
    kept. *)
Theorem apply_filters_restricts_checkpoint (df : DataFrame)
    (age_range : Z * Z) (gender_filter : list string)
    (district_filter : option (list string))
    (transport_filter : list string) :
  (forall r, r ∈ rows df -> Mode_of_Transport r ∈ transport_filter) ->
  (truthy district_filter = true ->
   forall r, r ∈ rows df -> District r ∈ default [] district_filter) ->
  apply_filters df age_range gender_filter district_filter transport_filter
  = checkpoint_filter df age_range gender_filter.
Proof.
  intros Hmodes Hdistricts. apply DataFrame_eq.
  - rewrite apply_filters_columns. reflexivity.
  - rewrite apply_filters_rows. unfold checkpoint_filter, getitem_mask.
    cbn [rows]. unfold series_ge, series_le, isin, col.
    rewrite !List.map_map, !mask_and_map, boolean_index_map.
    apply List.filter_ext_in. intros r Hr. apply list_elem_of_In in Hr.
    unfold base_mask.
    rewrite (bool_decide_eq_true_2 _ (Hmodes r Hr)), andb_true_r.
    destruct (truthy district_filter) eqn:E; cbn [andb negb orb].
    + rewrite (bool_decide_eq_true_2 _ (Hdistricts eq_refl r Hr)).
      now rewrite orb_true_r, andb_true_r.
    + now rewrite andb_true_r.
Qed.

Lemma apply_filters_restricts_checkpoint_witness :
  apply_filters scenario_df (25, 55) ["Male"] (all_districts scenario_df)
                (all_modes scenario_df)
  = checkpoint_filter scenario_df (25, 55) ["Male"].
Proof.
  apply apply_filters_restricts_checkpoint.
  - intros r Hr. apply elem_of_unique. unfold col.
    now apply list_elem_of_fmap_2.
  - intros _ r Hr. apply elem_of_unique. unfold col.
    now apply list_elem_of_fmap_2.
Defined.

(** ** Guards on optional columns *)

(** X20. The district selection can only narrow the result: the rows kept
    are a subsequence of those kept with no district selection, and on a
    table without a [District] column the selection is ignored
    altogether. *)
Theorem district_filter_narrows (df : DataFrame) (age_range : Z * Z)
    (gender_filter : list string) (district_filter : option (list string))
    (transport_filter : list string) :
  rows (apply_filters df age_range gender_filter district_filter
          transport_filter)
  `sublist_of`
  rows (apply_filters df age_range gender_filter None transport_filter)
  /\ (has_column "District" df = false ->
      apply_filters df age_range gender_filter district_filter
                    transport_filter
      = apply_filters df age_range gender_filter None transport_filter).
Proof.
  split.
  - rewrite !apply_filters_rows. apply filter_sublist_mono. intros r H.
    apply andb_true_iff in H as [H _]. now rewrite H.
  - intros Hcol. apply DataFrame_eq; [now rewrite !apply_filters_columns|].
    rewrite !apply_filters_rows, Hcol. apply List.filter_ext. intros r.
    now rewrite !andb_false_r.
Qed.

Lemma district_filter_narrows_witness :
  apply_filters no_district_df (20, 60) ["Male"] (Some ["Downtown"]) ["EV"]
  = apply_filters no_district_df (20, 60) ["Male"] None ["EV"].
Proof.
  apply (proj2 (district_filter_narrows no_district_df (20, 60) ["Male"]
                  (Some ["Downtown"]) ["EV"])).
  reflexivity.
Defined.

(** X21. A table read with an [Age_Group] column of its own is not
    binned again for the recycling chart: the chart then has one entry
    per label that occurs in that column, each with a numeric mean, and
    no entry for the others. Without a [Recycling_Rate] column neither
    the recycling chart nor the digital-usage chart is computed. *)
Theorem recycling_by_age_own_groups {P : Pandas} (filtered_df : DataFrame) :
  (has_column "Recycling_Rate" filtered_df = true ->
   has_column "Age_Group" filtered_df = true ->
   exists t,
     recycling_by_age filtered_df = Some t
     /\ NoDup t.*1
     /\ forall k, k ∈ t.*1 <->
                  exists r, r ∈ rows filtered_df /\ Age_Group r = Some k)
  /\ (has_column "Recycling_Rate" filtered_df = false ->
      recycling_by_age filtered_df = None
      /\ digital_by_district filtered_df = None).
Proof.
  split.
  - intros Hrec Hage. unfold recycling_by_age. rewrite Hrec, Hage.
    cbn [negb]. eexists. split; [reflexivity|].
    rewrite groupby_mean_keys. split; [apply NoDup_group_keys|].
    intros k. apply elem_of_group_keys.
  - intros Hrec. unfold recycling_by_age, digital_by_district.
    now rewrite Hrec.
Qed.

Definition labelled_df : DataFrame :=
  {| columns := mock_columns ++ ["Age_Group"];
     rows := [ set_Age_Group (citizen 30 "Male" "Uptown" "EV") (Some "young");
               set_Age_Group (citizen 70 "Female" "Uptown" "Bus") (Some "old");
               set_Age_Group (citizen 31 "Male" "Suburbs" "Car")
                             (Some "young") ] |}.

Lemma recycling_by_age_own_groups_witness :
  exists t,
    recycling_by_age (P := pandas_2x) labelled_df = Some t /\ NoDup t.*1.
Proof.
  destruct (proj1 (recycling_by_age_own_groups (P := pandas_2x) labelled_df))
    as (t & Ht & Hn & _); [reflexivity | reflexivity |].
  exists t. split; [exact Ht | exact Hn].
Defined.

Lemma generated_full_selection_keeps_all_witness :
  let df := (generate_mock_data (RS := lcg_RandomState) 3 7).1 in
  age_slider_bounds df = Some (32, 65)
  /\ apply_filters df (32, 65) (all_genders df) (all_districts df)
                   (all_modes df) = df.
Proof.
  split; [reflexivity|].
  apply (generated_full_selection_keeps_all (RS := lcg_RandomState) 3 7 32 65).
  reflexivity.
Defined.
